(** * MySQL MCP server: the five database tools of [mysql_mcp_server.py]

    A shallow embedding of the module.  Python values are modelled by
    ordinary data, the module's side effects (log records, calls into
    SQLAlchemy, the state of the database) by a state-and-exception monad
    [Py] over a [World].  SQLAlchemy and the MySQL server are not part of the
    module: they appear as a [Backend], a record of the answers the library
    gives, over which every definition and theorem is parametric. *)

From stdpp Require Import base option list strings gmap pretty.

Set Default Proof Using "Type".

(** ** Python values *)

(** The values that cross the database boundary ([Any] in the source). *)
Inductive PyValue : Type :=
  | PyNone
  | PyBool (b : bool)
  | PyInt (z : Z)
  | PyStr (s : string).

#[global] Instance PyValue_eq_dec : EqDecision PyValue.
Proof. solve_decision. Defined.

(** A Python [dict] with string keys. *)
Abbreviation Dict := (gmap string PyValue).

(** [dict(items)]: the items are inserted from left to right, a later item
    overwrites an earlier one with the same key. *)
Definition py_dict (items : list (string * PyValue)) : Dict :=
  foldl (fun d kv => <[kv.1 := kv.2]> d) ∅ items.

(** [xs[:n]] for a Python integer [n]: the first [n] elements when [n] is
    not negative, all but the last [-n] elements when it is. *)
Definition py_slice_to {A : Type} (n : Z) (xs : list A) : list A :=
  if decide (0 <= n)%Z
  then take (Z.to_nat n) xs
  else take (length xs - Z.to_nat (- n)) xs.

(** [len(xs)] as a Python integer. *)
Definition len {A : Type} (xs : list A) : Z := Z.of_nat (length xs).

(** [sep.join(parts)]. *)
Definition py_join (sep : string) (parts : list string) : string :=
  String.concat sep parts.

(** An exception object: its class and the text [str(e)] renders. *)
Record Exception : Type := mkException {
  exc_class : string;
  exc_text : string
}.

#[global] Instance Exception_eq_dec : EqDecision Exception.
Proof. solve_decision. Defined.

Definition str (e : Exception) : string := exc_text e.

(** ** Configuration *)

(** [class DatabaseConfig(BaseSettings)]: every field is a plain [str] or
    [int]; no field declares a bound. *)
Record DatabaseConfig : Type := mkDatabaseConfig {
  DB_HOST : string;
  DB_PORT : Z;
  DB_USER : string;
  DB_PASSWORD : string;
  DB_NAME : string;
  DB_POOL_SIZE : Z;
  DB_POOL_RECYCLE : Z;
  DB_MAX_OVERFLOW : Z;
  QUERY_TIMEOUT : Z;
  MAX_RESULT_ROWS : Z
}.

(** The defaults of the optional settings, with the required ones given. *)
Definition default_config (h u p n : string) : DatabaseConfig :=
  {| DB_HOST := h; DB_PORT := 3306; DB_USER := u; DB_PASSWORD := p;
     DB_NAME := n; DB_POOL_SIZE := 5; DB_POOL_RECYCLE := 3600;
     DB_MAX_OVERFLOW := 2; QUERY_TIMEOUT := 30; MAX_RESULT_ROWS := 1000 |}.

(** ** The engine description handed to SQLAlchemy *)

Record URL : Type := mkURL {
  drivername : string;
  username : string;
  password : string;
  host : string;
  port : Z;
  database : string;
  url_query : list (string * string)
}.

Inductive PoolClass : Type := QueuePool | NullPool | StaticPool.

(** The arguments of [create_engine]. *)
Record Engine : Type := mkEngine {
  url : URL;
  poolclass : PoolClass;
  pool_size : Z;
  max_overflow : Z;
  pool_recycle : Z;
  pool_pre_ping : bool;
  pool_use_lifo : bool;
  echo : bool
}.

Definition create_db_engine (config : DatabaseConfig) : Engine :=
  let db_url :=
    {| drivername := "mysql+pymysql";
       username := DB_USER config;
       password := DB_PASSWORD config;
       host := DB_HOST config;
       port := DB_PORT config;
       database := DB_NAME config;
       url_query := [ ("charset", "utf8mb4");
                      ("connect_timeout", pretty (QUERY_TIMEOUT config)) ] |} in
  {| url := db_url;
     poolclass := QueuePool;
     pool_size := DB_POOL_SIZE config;
     max_overflow := DB_MAX_OVERFLOW config;
     pool_recycle := DB_POOL_RECYCLE config;
     pool_pre_ping := true;
     pool_use_lifo := true;
     echo := false |}.

(** The configuration with another [QUERY_TIMEOUT]. *)
Definition with_QUERY_TIMEOUT (t : Z) (c : DatabaseConfig) : DatabaseConfig :=
  {| DB_HOST := DB_HOST c; DB_PORT := DB_PORT c; DB_USER := DB_USER c;
     DB_PASSWORD := DB_PASSWORD c; DB_NAME := DB_NAME c;
     DB_POOL_SIZE := DB_POOL_SIZE c; DB_POOL_RECYCLE := DB_POOL_RECYCLE c;
     DB_MAX_OVERFLOW := DB_MAX_OVERFLOW c; QUERY_TIMEOUT := t;
     MAX_RESULT_ROWS := MAX_RESULT_ROWS c |}.

(** The engine description with the value of one URL query argument
    replaced and everything else kept. *)
Definition with_url_query_arg (k v : string) (e : Engine) : Engine :=
  {| url :=
       {| drivername := drivername (url e);
          username := username (url e);
          password := password (url e);
          host := host (url e);
          port := port (url e);
          database := database (url e);
          url_query :=
            map (fun kv => if String.eqb kv.1 k then (k, v) else kv)
                (url_query (url e)) |};
     poolclass := poolclass e;
     pool_size := pool_size e;
     max_overflow := max_overflow e;
     pool_recycle := pool_recycle e;
     pool_pre_ping := pool_pre_ping e;
     pool_use_lifo := pool_use_lifo e;
     echo := echo e |}.

(** ** Request models *)

(** [class QueryParams(BaseModel)]. *)
Record QueryParams : Type := mkQueryParams {
  query : string;
  params : option Dict
}.

(** [class TableQueryParams(BaseModel)], after validation. *)
Record TableQueryParams : Type := mkTableQueryParams {
  table_name : string;
  columns : option (list string);
  where_ : option string;
  order_by : option string;
  limit : Z;
  offset : Z
}.

(** The arguments of a [get_table_data] request as they arrive, before the
    model is built: [None] stands for an argument that was left out. *)
Record TableQueryArgs : Type := mkTableQueryArgs {
  arg_table_name : option string;
  arg_columns : option (list string);
  arg_where : option string;
  arg_order_by : option string;
  arg_limit : option Z;
  arg_offset : option Z
}.

(** Construction of the model from the arguments, following the field
    declarations: [table_name] is required; [limit] is
    [Field(100, ge=1, le=1000)]; [offset] is [int = 0] with no constraint;
    the three optional fields default to [None]. *)
Definition TableQueryParams_validate (a : TableQueryArgs)
  : Exception + TableQueryParams :=
  match arg_table_name a with
  | None => inl (mkException "ValidationError" "table_name: Field required")
  | Some t =>
    let l := default 100%Z (arg_limit a) in
    if negb (1 <=? l)%Z then
      inl (mkException "ValidationError"
             "limit: Input should be greater than or equal to 1")
    else if negb (l <=? 1000)%Z then
      inl (mkException "ValidationError"
             "limit: Input should be less than or equal to 1000")
    else
      inr {| table_name := t;
             columns := arg_columns a;
             where_ := arg_where a;
             order_by := arg_order_by a;
             limit := l;
             offset := default 0%Z (arg_offset a) |}
  end.

(** ** What SQLAlchemy hands back *)

(** [row._mapping]: the (column, value) items of one result row, in column
    order. *)
Abbreviation RowMapping := (list (string * PyValue)).

(** The result object of [conn.execute]. Iterating it either yields the
    rows in the order the server sent them or raises. *)
Record CursorResult : Type := mkCursorResult {
  fetch : Exception + list RowMapping;
  rowcount : Z;
  lastrowid : Z
}.

(** One entry of [inspector.get_columns]. The key ["comment"] may be
    missing; when present its value may be [None]. *)
Record ReflectedColumn : Type := mkReflectedColumn {
  col_name : string;
  col_type : string;              (* the rendering [str(col["type"])] *)
  col_nullable : bool;
  col_default : option string;
  col_comment : option (option string)
}.

Definition py_opt_str (o : option string) : PyValue :=
  match o with
  | None => PyNone
  | Some s => PyStr s
  end.

(** The library and the server behind it, as a record of answers.
    [Store] is the content of the database.
    - [checkout]: taking a connection from the pool of an engine
      ([Some e]: the attempt raises [e]);
    - [get_table_names], [get_columns]: the two reflection calls;
    - [run]: executing one statement with its bound parameters on a
      connection whose session sees [Store]; the session's new content is
      returned also when the statement raises, since a failing statement
      may have changed rows before it failed;
    - [commit_error]: committing a session ([Some e]: it raises [e]). *)
Record Backend (Store : Type) : Type := mkBackend {
  checkout : Engine -> Store -> option Exception;
  get_table_names : Engine -> Store -> Exception + list string;
  get_columns : Engine -> Store -> string -> Exception + list ReflectedColumn;
  run : Store -> string -> Dict -> Store * (Exception + CursorResult);
  commit_error : Store -> option Exception
}.

Arguments checkout {Store} _ _ _.
Arguments get_table_names {Store} _ _ _.
Arguments get_columns {Store} _ _ _ _.
Arguments run {Store} _ _ _ _.
Arguments commit_error {Store} _ _.

(** ** The world the module acts on *)

Inductive Level : Type := INFO | WARNING | ERROR | CRITICAL.

#[global] Instance Level_eq_dec : EqDecision Level.
Proof. solve_decision. Defined.

Record LogRecord : Type := mkLogRecord {
  levelname : Level;
  message : string
}.

#[global] Instance LogRecord_eq_dec : EqDecision LogRecord.
Proof. solve_decision. Defined.

(** The calls the module makes into the library, in the order made. *)
Inductive Event : Type :=
  | Connect                                   (* [engine.connect()] *)
  | Begin                                     (* [engine.begin()] *)
  | Execute (sql : string) (bound : Dict)     (* [conn.execute(text(sql), bound)] *)
  | Commit
  | Rollback
  | Close
  | GetTableNames                             (* [inspector.get_table_names()] *)
  | GetColumns (table : string).              (* [inspector.get_columns(table)] *)

(** [committed] is the durable content of the database, [session] what the
    connection currently checked out sees, [journal] the library calls made
    so far and [logs] the records handed to the logger. *)
Record World (Store : Type) : Type := mkWorld {
  committed : Store;
  session : Store;
  journal : list Event;
  logs : list LogRecord
}.

Arguments mkWorld {Store} _ _ _ _.
Arguments committed {Store} _.
Arguments session {Store} _.
Arguments journal {Store} _.
Arguments logs {Store} _.

(** ** Effects: state and exceptions *)

Section Effects.
Context {Store : Type}.

  (** A computation either raises or returns, and leaves a world behind. *)
Definition Py (A : Type) : Type :=
    World Store -> (Exception + A) * World Store.

Definition ret {A : Type} (a : A) : Py A := fun w => (inr a, w).

Definition bind {A B : Type} (m : Py A) (k : A -> Py B) : Py B :=
    fun w =>
      match m w with
      | (inl e, w') => (inl e, w')
      | (inr a, w') => k a w'
      end.

  (** [raise e]; also the bare [raise] of a handler bound to [e]. *)
Definition raise {A : Type} (e : Exception) : Py A := fun w => (inl e, w).

  (** [try: body / except Exception as e: handler e]. *)
Definition try_except {A : Type} (body : Py A) (handler : Exception -> Py A)
    : Py A :=
    fun w =>
      match body w with
      | (inl e, w') => handler e w'
      | (inr a, w') => (inr a, w')
      end.

  (** A value or exception computed by the library, brought into [Py]. *)
Definition lift {A : Type} (r : Exception + A) : Py A := fun w => (r, w).

Definition emit (ev : Event) (w : World Store) : World Store :=
    mkWorld (committed w) (session w) (journal w ++ [ev]) (logs w).

Definition log (lvl : Level) (msg : string) : Py unit :=
    fun w =>
      (inr tt,
       mkWorld (committed w) (session w) (journal w)
               (logs w ++ [mkLogRecord lvl msg])).

Definition logger_info : string -> Py unit := log INFO.
Definition logger_warning : string -> Py unit := log WARNING.
Definition logger_error : string -> Py unit := log ERROR.
End Effects.

Declare Scope py_scope.
Delimit Scope py_scope with py.
Notation "x <- m ;; k" := (bind m (fun x => k))
  (at level 100, m at next level, right associativity) : py_scope.
Notation "m ;;; k" := (bind m (fun _ => k))
  (at level 100, right associativity) : py_scope.

(** ** The module *)

Section Server.
Context {Store : Type}.
Variable backend : Backend Store.
Variable config : DatabaseConfig.

Local Open Scope py_scope.

  (** The module-level [engine = create_db_engine()]. *)
Definition engine : Engine := create_db_engine config.

  (** A connection handle; the module holds at most one at a time. *)
Inductive Connection : Type := Conn.

  (** [with engine.connect() as conn: body conn]. The connection starts on
      the committed content; nothing is committed when it is closed, so
      whatever the statements changed in the session is dropped. *)
Definition engine_connect {A : Type} (body : Connection -> Py A) : Py A :=
    fun w =>
      let w0 := emit Connect w in
      match checkout backend engine (committed w0) with
      | Some e => (inl e, w0)
      | None =>
        let w1 := mkWorld (committed w0) (committed w0) (journal w0) (logs w0) in
        let '(r, w2) := body Conn w1 in
        (r, emit Close
              (mkWorld (committed w2) (committed w2) (journal w2) (logs w2)))
      end.

  (** [with engine.begin() as conn: body conn]. The body runs in a
      transaction: it is committed when the body returns and rolled back
      when the body raises; a commit that raises leaves nothing committed. *)
Definition engine_begin {A : Type} (body : Connection -> Py A) : Py A :=
    fun w =>
      let w0 := emit Begin w in
      match checkout backend engine (committed w0) with
      | Some e => (inl e, w0)
      | None =>
        let w1 := mkWorld (committed w0) (committed w0) (journal w0) (logs w0) in
        match body Conn w1 with
        | (inl e, w2) =>
          (inl e,
           emit Close (emit Rollback
             (mkWorld (committed w2) (committed w2) (journal w2) (logs w2))))
        | (inr a, w2) =>
          let w3 := emit Commit w2 in
          match commit_error backend (session w3) with
          | Some e =>
            (inl e,
             emit Close
               (mkWorld (committed w3) (committed w3) (journal w3) (logs w3)))
          | None =>
            (inr a,
             emit Close
               (mkWorld (session w3) (session w3) (journal w3) (logs w3)))
          end
        end
      end.

  (** [conn.execute(text(sql), bound)]. *)
Definition conn_execute (conn : Connection) (sql : string) (bound : Dict)
    : Py CursorResult :=
    fun w =>
      let w0 := emit (Execute sql bound) w in
      let '(s, r) := run backend (session w0) sql bound in
      (r, mkWorld (committed w0) s (journal w0) (logs w0)).

  (** [inspect(engine).get_table_names()]. *)
Definition inspector_get_table_names : Py (list string) :=
    fun w =>
      let w0 := emit GetTableNames w in
      (get_table_names backend engine (committed w0), w0).

  (** [inspect(engine).get_columns(table_name)]. *)
Definition inspector_get_columns (table : string)
    : Py (list ReflectedColumn) :=
    fun w =>
      let w0 := emit (GetColumns table) w in
      (get_columns backend engine (committed w0) table, w0).

  (** [params or {}]. *)
Definition params_or_empty (p : option Dict) : Dict :=
    match p with
    | None => ∅
    | Some d => if decide (d = ∅) then ∅ else d
    end.

Definition list_tables : Py (list string) :=
    try_except
      (tables <- inspector_get_table_names ;;
       logger_info ("成功获取表列表，共" +:+ pretty (length tables)
                    +:+ "张表") ;;;
       ret tables)
      (fun e =>
         logger_error ("获取表列表失败: " +:+ str e) ;;;
         raise e).

  (** The dictionary built for one column in [describe_table]. *)
Definition column_info (col : ReflectedColumn) : Dict :=
    py_dict [ ("name", PyStr (col_name col));
              ("type", PyStr (col_type col));
              ("nullable", PyBool (col_nullable col));
              ("default", py_opt_str (col_default col));
              ("comment", match col_comment col with
                          | None => PyStr ""
                          | Some c => py_opt_str c
                          end) ].

Definition describe_table (table_name : string) : Py (list Dict) :=
    try_except
      (columns <- inspector_get_columns table_name ;;
       let result := map column_info columns in
       logger_info ("成功获取表结构: " +:+ table_name) ;;;
       ret result)
      (fun e =>
         logger_error ("获取表结构失败[" +:+ table_name +:+ "]: " +:+ str e) ;;;
         raise e).

Definition execute_query (query_params : QueryParams) : Py (list Dict) :=
    try_except
      (engine_connect (fun conn =>
         result <- conn_execute conn (query query_params)
                     (params_or_empty (params query_params)) ;;
         fetched <- lift (fetch result) ;;
         let rows := map py_dict fetched in
         rows <- (if decide (len rows > MAX_RESULT_ROWS config)%Z
                  then
                    logger_warning ("查询结果被截断，最多返回"
                                    +:+ pretty (MAX_RESULT_ROWS config)
                                    +:+ "行") ;;;
                    ret (py_slice_to (MAX_RESULT_ROWS config) rows)
                  else ret rows) ;;
         logger_info ("执行查询成功，返回" +:+ pretty (length rows)
                      +:+ "行") ;;;
         ret rows))
      (fun e =>
         logger_error ("执行查询失败: " +:+ str e) ;;;
         raise e).

Definition execute_write (query_params : QueryParams) : Py Dict :=
    try_except
      (engine_begin (fun conn =>
         result <- conn_execute conn (query query_params)
                     (params_or_empty (params query_params)) ;;
         logger_info ("写操作成功，影响" +:+ pretty (rowcount result)
                      +:+ "行") ;;;
         ret (py_dict [ ("status", PyStr "success");
                        ("affected_rows", PyInt (rowcount result));
                        ("lastrowid", PyInt (lastrowid result)) ])))
      (fun e =>
         logger_error ("执行写操作失败: " +:+ str e) ;;;
         raise e).

  (** The statement [get_table_data] composes from its arguments. *)
Definition table_query (params : TableQueryParams) : string :=
    let columns :=
      match columns params with
      | None | Some [] => ["*"]
      | Some cs => cs
      end in
    let column_list := py_join ", " columns in
    let query := "SELECT " +:+ column_list +:+ " FROM " +:+ table_name params in
    let query :=
      match where_ params with
      | None | Some "" => query
      | Some w => query +:+ " WHERE " +:+ w
      end in
    let query :=
      match order_by params with
      | None | Some "" => query
      | Some o => query +:+ " ORDER BY " +:+ o
      end in
    query +:+ " LIMIT " +:+ pretty (limit params)
          +:+ " OFFSET " +:+ pretty (offset params).

Definition get_table_data (params : TableQueryParams) : Py (list Dict) :=
    try_except
      (let query := table_query params in
       engine_connect (fun conn =>
         result <- conn_execute conn query ∅ ;;
         fetched <- lift (fetch result) ;;
         let rows := map py_dict fetched in
         rows <- (if decide (len rows > MAX_RESULT_ROWS config)%Z
                  then
                    logger_warning ("查询结果被截断，最多返回"
                                    +:+ pretty (MAX_RESULT_ROWS config)
                                    +:+ "行") ;;;
                    ret (py_slice_to (MAX_RESULT_ROWS config) rows)
                  else ret rows) ;;
         logger_info ("获取表数据成功: " +:+ table_name params +:+ ", 返回"
                      +:+ pretty (length rows) +:+ "行") ;;;
         ret rows))
      (fun e =>
         logger_error ("获取表数据失败[" +:+ table_name params +:+ "]: "
                       +:+ str e) ;;;
         raise e).

  (** The tool as the dispatcher reaches it: the request model is built
      from the arguments first, and the function body runs only on a model
      that passed validation. *)
Definition call_get_table_data (args : TableQueryArgs) : Py (list Dict) :=
    match TableQueryParams_validate args with
    | inl e => raise e
    | inr params => get_table_data params
    end.
End Server.

Arguments Conn : clear implicits.

(** ** Reference descriptions *)

Section Reference.
Context {Store : Type}.
Variable backend : Backend Store.
Variable config : DatabaseConfig.

  (** The record [execute_query] and [get_table_data] log when they cut a
      result. *)
Definition truncation_warning : LogRecord :=
    mkLogRecord WARNING
      ("查询结果被截断，最多返回" +:+ pretty (MAX_RESULT_ROWS config) +:+ "行").

  (** What the library answers to a read of [sql] with [bound] issued on a
      fresh connection in world [w]: the rows, or the exception raised while
      connecting, executing or fetching. *)
Definition read_outcome (w : World Store) (sql : string) (bound : Dict)
    : Exception + list RowMapping :=
    match checkout backend (engine config) (committed w) with
    | Some e => inl e
    | None =>
      match (run backend (committed w) sql bound).2 with
      | inl e => inl e
      | inr cur => fetch cur
      end
    end.

  (** What the library answers to a write of [sql] with [bound] in its own
      transaction: the result object of the statement, or the exception
      raised while connecting, executing or committing. *)
Definition write_outcome (w : World Store) (sql : string) (bound : Dict)
    : Exception + CursorResult :=
    match checkout backend (engine config) (committed w) with
    | Some e => inl e
    | None =>
      match run backend (committed w) sql bound with
      | (_, inl e) => inl e
      | (s, inr cur) =>
        match commit_error backend s with
        | Some e => inl e
        | None => inr cur
        end
      end
    end.

  (** The rows handed to the caller for a fetched result. *)
Definition capped (fetched : list RowMapping) : list Dict :=
    if decide (len fetched > MAX_RESULT_ROWS config)%Z
    then py_slice_to (MAX_RESULT_ROWS config) (map py_dict fetched)
    else map py_dict fetched.

  (** The world after a read on a connection that was opened: nothing is
      committed, the three library calls are journalled, [new] is logged. *)
Definition after_read (w : World Store) (sql : string) (bound : Dict)
      (new : list LogRecord) : World Store :=
    mkWorld (committed w) (committed w)
            (((journal w ++ [Connect]) ++ [Execute sql bound]) ++ [Close])
            (logs w ++ new).

  (** The records logged by a read that fetched [fetched]. *)
Definition read_logs (info : nat -> string) (fetched : list RowMapping)
    : list LogRecord :=
    (if decide (len fetched > MAX_RESULT_ROWS config)%Z
     then [truncation_warning] else [])
    ++ [mkLogRecord INFO (info (length (capped fetched)))].

  (** The result of an operation whose underlying call answered [r]: the
      exception itself, or the payload built from the answer. *)
Definition on_success {A B : Type} (f : A -> B) (r : Exception + A)
    : Exception + B :=
    match r with
    | inl e => inl e
    | inr a => inr (f a)
    end.

  (** The dictionary [execute_write] returns for a result object. *)
Definition write_payload (cur : CursorResult) : Dict :=
    py_dict [ ("status", PyStr "success");
              ("affected_rows", PyInt (rowcount cur));
              ("lastrowid", PyInt (lastrowid cur)) ].

  (** The last record logged is an ERROR record with text [msg]. *)
Definition logged_error (w : World Store) (msg : string) : Prop :=
    last (logs w) = Some (mkLogRecord ERROR msg).

  (** The contract of the reflection API for tables that do not exist:
      asking for the columns of a table that is not among the table names
      raises. *)
Definition reflects_missing_tables : Prop :=
    forall (eng : Engine) (s : Store) (names : list string) (t : string),
      get_table_names backend eng s = inr names ->
      t ∉ names ->
      exists e, get_columns backend eng s t = inl e.

  (** The statement texts, respectively the parameter dictionaries, that a
      call with text [q] and bound values [b] hands to the library: one of
      each when a connection was obtained, none otherwise. *)
Definition handed_over {A : Type} (w : World Store) (x : A) : list A :=
    match checkout backend (engine config) (committed w) with
    | None => [x]
    | Some _ => []
    end.

  (** The library answers alike for the engines of the two configurations
      wherever it is handed an engine. *)
Definition same_connections (t : Z) : Prop :=
    (forall s, checkout backend (engine (with_QUERY_TIMEOUT t config)) s
               = checkout backend (engine config) s) /\
    (forall s, get_table_names backend (engine (with_QUERY_TIMEOUT t config)) s
               = get_table_names backend (engine config) s) /\
    (forall s tb, get_columns backend (engine (with_QUERY_TIMEOUT t config)) s tb
                  = get_columns backend (engine config) s tb).

  (** The statement texts among the library calls of a journal. *)
Definition statements (j : list Event) : list string :=
    omap (fun ev => match ev with Execute sql _ => Some sql | _ => None end) j.

  (** The bound-parameter dictionaries among the library calls. *)
Definition bindings (j : list Event) : list Dict :=
    omap (fun ev => match ev with Execute _ b => Some b | _ => None end) j.
End Reference.

(** ** A small database for running the module *)

(** One table [t] with one integer column [x]; the store is the list of the
    values of its rows. *)
Definition toy_rows (s : list Z) : list RowMapping :=
  map (fun v => [("x", PyInt v)]) s.

Definition toy_run (s : list Z) (sql : string) (bound : Dict)
  : list Z * (Exception + CursorResult) :=
  if String.eqb sql "SELECT x FROM t" then
    (s, inr (mkCursorResult (inr (toy_rows s)) (len s) 0))
  else if String.eqb sql "INSERT INTO t(x) VALUES(:v)" then
    match bound !! "v" with
    | Some (PyInt v) =>
      (s ++ [v],
       inr (mkCursorResult
              (inl (mkException "ResourceClosedError"
                      "This result object does not return rows."))
              1 (len s + 1)))
    | _ => (s, inl (mkException "StatementError" "missing value for v"))
    end
  else if String.eqb sql "INSERT INTO t(x) VALUES(:v),(NULL)" then
    match bound !! "v" with
    | Some (PyInt v) =>
      (s ++ [v], inl (mkException "IntegrityError" "Column 'x' cannot be null"))
    | _ => (s, inl (mkException "StatementError" "missing value for v"))
    end
  else
    (s, inl (mkException "ProgrammingError" "You have an error in your SQL syntax")).

Definition toy_columns (table : string)
  : Exception + list ReflectedColumn :=
  if String.eqb table "t"
  then inr [mkReflectedColumn "x" "INTEGER" false None None]
  else inl (mkException "NoSuchTableError" table).

Definition toy_backend : Backend (list Z) :=
  {| checkout := fun _ _ => None;
     get_table_names := fun _ _ => inr ["t"];
     get_columns := fun _ _ table => toy_columns table;
     run := toy_run;
     commit_error := fun _ => None |}.

Definition toy_config (cap : Z) : DatabaseConfig :=
  {| DB_HOST := "localhost"; DB_PORT := 3306; DB_USER := "mcp";
     DB_PASSWORD := "secret"; DB_NAME := "demo"; DB_POOL_SIZE := 5;
     DB_POOL_RECYCLE := 3600; DB_MAX_OVERFLOW := 2; QUERY_TIMEOUT := 30;
     MAX_RESULT_ROWS := cap |}.

Definition toy_world (s : list Z) : World (list Z) := mkWorld s s [] [].

(** ** Start-up *)

(** The settings sources (process environment and [.env] file) as
    [DatabaseConfig()] reads them: [None] stands for a setting that is not
    set, integer settings are taken as already parsed. *)
Record Environment : Type := mkEnvironment {
  env_DB_HOST : option string;
  env_DB_PORT : option Z;
  env_DB_USER : option string;
  env_DB_PASSWORD : option string;
  env_DB_NAME : option string;
  env_DB_POOL_SIZE : option Z;
  env_DB_POOL_RECYCLE : option Z;
  env_DB_MAX_OVERFLOW : option Z;
  env_QUERY_TIMEOUT : option Z;
  env_MAX_RESULT_ROWS : option Z
}.

(** [config = DatabaseConfig()]: the four settings declared with
    [Field(...)] are required, the others fall back to their defaults; no
    setting is checked against a bound. *)
Definition DatabaseConfig_load (env : Environment)
  : Exception + DatabaseConfig :=
  match env_DB_HOST env, env_DB_USER env, env_DB_PASSWORD env,
        env_DB_NAME env with
  | Some h, Some u, Some p, Some n =>
    inr {| DB_HOST := h;
           DB_PORT := default 3306%Z (env_DB_PORT env);
           DB_USER := u;
           DB_PASSWORD := p;
           DB_NAME := n;
           DB_POOL_SIZE := default 5%Z (env_DB_POOL_SIZE env);
           DB_POOL_RECYCLE := default 3600%Z (env_DB_POOL_RECYCLE env);
           DB_MAX_OVERFLOW := default 2%Z (env_DB_MAX_OVERFLOW env);
           QUERY_TIMEOUT := default 30%Z (env_QUERY_TIMEOUT env);
           MAX_RESULT_ROWS := default 1000%Z (env_MAX_RESULT_ROWS env) |}
  | _, _, _, _ => inl (mkException "ValidationError" "Field required")
  end.

Section Startup.
Context {Store : Type}.
Variable backend : Backend Store.
Variable config : DatabaseConfig.

Local Open Scope py_scope.

Definition logger_critical : string -> Py (Store := Store) unit :=
  log CRITICAL.

(** The line the start-up logs about the database it connects to. *)
Definition connection_line : string :=
  "连接数据库: " +:+ DB_USER config +:+ "@" +:+ DB_HOST config +:+ ":"
    +:+ pretty (DB_PORT config) +:+ "/" +:+ DB_NAME config.

(** The [__main__] block. [mcp_run] stands for
    [mcp.run(transport="stdio")], the server loop of the MCP framework; the
    result object of the test statement is not iterated. *)
Definition main (mcp_run : Py unit) : Py unit :=
  try_except
    (logger_info "启动MySQL MCP Server..." ;;;
     logger_info connection_line ;;;
     engine_connect backend config (fun conn =>
       _ <- conn_execute backend conn "SELECT 1" ∅ ;;
       logger_info "数据库连接测试成功") ;;;
     mcp_run)
    (fun e =>
       logger_critical ("服务器启动失败: " +:+ str e) ;;;
       raise e).
End Startup.

(** ** Further databases for running the module *)

(** The small database with a commit that raises. *)
Definition commit_failing_backend : Backend (list Z) :=
  {| checkout := fun _ _ => None;
     get_table_names := fun _ _ => inr ["t"];
     get_columns := fun _ _ table => toy_columns table;
     run := toy_run;
     commit_error := fun _ =>
       Some (mkException "OperationalError"
               "Lost connection to MySQL server during query") |}.

(** A server that cannot be reached: no connection is handed out. *)
Definition unreachable_backend : Backend (list Z) :=
  {| checkout := fun _ _ =>
       Some (mkException "OperationalError" "Can't connect to MySQL server");
     get_table_names := fun _ _ =>
       inl (mkException "OperationalError" "Can't connect to MySQL server");
     get_columns := fun _ _ _ =>
       inl (mkException "OperationalError" "Can't connect to MySQL server");
     run := toy_run;
     commit_error := fun _ => None |}.

(** * Properties *)

(** Unfolds the effect layer so that a run of an operation becomes a case
    distinction on the answers of the backend. *)
Ltac py_unfold :=
  unfold execute_query, execute_write, get_table_data, list_tables,
    describe_table, call_get_table_data, try_except, engine_connect,
    engine_begin, bind, conn_execute, inspector_get_table_names,
    inspector_get_columns, lift, ret, raise, logger_error, logger_info,
    logger_warning, log, emit;
  cbn [committed session journal logs fst snd].

(** ** Basic facts about slices and lengths *)

Lemma len_map {A B : Type} (f : A -> B) (xs : list A) : len (map f xs) = len xs.
Proof. unfold len. now rewrite length_map. Qed.

Lemma py_slice_to_nonneg {A : Type} (n : Z) (xs : list A) :
  (0 <= n)%Z -> py_slice_to n xs = take (Z.to_nat n) xs.
Proof. intros Hn. unfold py_slice_to. now rewrite decide_True. Qed.

Lemma py_slice_to_length {A : Type} (n : Z) (xs : list A) :
  (0 <= n)%Z -> (len xs > n)%Z -> len (py_slice_to n xs) = n.
Proof.
  intros Hn Hlen. rewrite py_slice_to_nonneg by done.
  unfold len in *. rewrite length_take. lia.
Qed.

Lemma py_slice_to_prefix {A : Type} (n : Z) (xs : list A) :
  py_slice_to n xs `prefix_of` xs.
Proof. unfold py_slice_to. case_decide; apply prefix_take. Qed.

(** ** Runs of the read path *)

Section Runs.
Context {Store : Type}.
Variable backend : Backend Store.
Variable config : DatabaseConfig.

Lemma execute_query_fetched qp w fetched :
    read_outcome backend config w (query qp) (params_or_empty (params qp))
      = inr fetched ->
    execute_query backend config qp w =
      (inr (capped config fetched),
       after_read w (query qp) (params_or_empty (params qp))
         (read_logs config (fun n => "执行查询成功，返回" +:+ pretty n +:+ "行")
                    fetched)).
  Proof.
    unfold read_outcome, after_read, read_logs, capped, truncation_warning.
    py_unfold.
    destruct (checkout _ _ _); [done|].
    destruct (run _ _ _ _) as [s [e|cur]]; cbn; [done|].
    intros ->. rewrite len_map.
    case_decide; cbn; rewrite <- ?(assoc_L (++)); done.
  Qed.

Lemma execute_query_raised qp w e :
    read_outcome backend config w (query qp) (params_or_empty (params qp))
      = inl e ->
    exists w',
      execute_query backend config qp w = (inl e, w') /\
      committed w' = committed w /\
      logs w' = logs w ++ [mkLogRecord ERROR ("执行查询失败: " +:+ str e)].
  Proof.
    unfold read_outcome. py_unfold.
    destruct (checkout _ _ _).
    - intros [= ->]. eexists; split; [done|]. done.
    - destruct (run _ _ _ _) as [s [e'|cur]]; cbn.
      + intros [= ->]. eexists; split; [done|]. done.
      + intros ->. eexists; split; [done|]. done.
  Qed.

Lemma get_table_data_fetched p w fetched :
    read_outcome backend config w (table_query p) ∅ = inr fetched ->
    get_table_data backend config p w =
      (inr (capped config fetched),
       after_read w (table_query p) ∅
         (read_logs config (fun n => "获取表数据成功: " +:+ table_name p +:+ ", 返回"
                              +:+ pretty n +:+ "行")
                    fetched)).
  Proof.
    unfold read_outcome, after_read, read_logs, capped, truncation_warning.
    py_unfold.
    destruct (checkout _ _ _); [done|].
    destruct (run _ _ _ _) as [s [e|cur]]; cbn; [done|].
    intros ->. rewrite len_map.
    case_decide; cbn; rewrite <- ?(assoc_L (++)); done.
  Qed.

Lemma get_table_data_raised p w e :
    read_outcome backend config w (table_query p) ∅ = inl e ->
    exists w',
      get_table_data backend config p w = (inl e, w') /\
      committed w' = committed w /\
      logs w' = logs w ++
        [mkLogRecord ERROR ("获取表数据失败[" +:+ table_name p +:+ "]: "
                            +:+ str e)].
  Proof.
    unfold read_outcome. py_unfold.
    destruct (checkout _ _ _).
    - intros [= ->]. eexists; split; [done|]. done.
    - destruct (run _ _ _ _) as [s [e'|cur]]; cbn.
      + intros [= ->]. eexists; split; [done|]. done.
      + intros ->. eexists; split; [done|]. done.
  Qed.
End Runs.

(** ** Truncation *)

(** C1, as stated, fails: the value returned by [execute_query] is the bare
    list of rows, which carries no [truncated] flag, and the flag cannot be
    read off it either. With a cap of two rows, a table of two rows and a
    table of three rows with the same first two give the same return value,
    although only the second result was cut. *)
Lemma truncated_flag_not_in_return_value :
  ~ exists flag : list Dict -> bool,
      forall s : list Z,
        match (execute_query toy_backend (toy_config 2)
                 (mkQueryParams "SELECT x FROM t" None) (toy_world s)).1 with
        | inr rows => flag rows = bool_decide (len (toy_rows s) > 2)%Z
        | inl _ => True
        end.
Proof.
  intros [flag Hflag].
  pose proof (Hflag [1; 2]%Z) as H2.
  pose proof (Hflag [1; 2; 3]%Z) as H3.
  assert (Hsame : false = true); [|discriminate Hsame].
  etrans; [symmetry; exact H2 | exact H3].
Qed.

(** C1, amended: a call of [execute_query] or [get_table_data] whose
    underlying read succeeds returns a plain row list (never an error) that
    has no [truncated] flag; the only signal of truncation is the WARNING
    record, which is logged exactly when the underlying result has more
    than [MAX_RESULT_ROWS] rows. *)
Theorem truncation_signalled_by_warning_only
    {Store : Type} (backend : Backend Store) (config : DatabaseConfig)
    (w : World Store) (fetched : list RowMapping) :
  (forall qp : QueryParams,
     read_outcome backend config w (query qp) (params_or_empty (params qp))
       = inr fetched ->
     exists (rows : list Dict) (w' : World Store) (new : list LogRecord),
       execute_query backend config qp w = (inr rows, w') /\
       logs w' = logs w ++ new /\
       (truncation_warning config ∈ new <->
        (len fetched > MAX_RESULT_ROWS config)%Z)) /\
  (forall p : TableQueryParams,
     read_outcome backend config w (table_query p) ∅ = inr fetched ->
     exists (rows : list Dict) (w' : World Store) (new : list LogRecord),
       get_table_data backend config p w = (inr rows, w') /\
       logs w' = logs w ++ new /\
       (truncation_warning config ∈ new <->
        (len fetched > MAX_RESULT_ROWS config)%Z)).
Proof.
  assert (Hwarn : forall info,
    truncation_warning config ∈ read_logs config info fetched <->
    (len fetched > MAX_RESULT_ROWS config)%Z).
  { intros info. unfold read_logs, truncation_warning.
    case_decide; split; try done.
    - intros _. apply elem_of_app. left. apply list_elem_of_singleton. done.
    - intros Hin. apply elem_of_app in Hin as [Hin|Hin].
      + by apply elem_of_nil in Hin.
      + apply list_elem_of_singleton in Hin. discriminate Hin. }
  split.
  - intros qp Hout. rewrite (execute_query_fetched _ _ _ _ _ Hout).
    do 3 eexists. split; [done|]. split; [done|]. apply Hwarn.
  - intros p Hout. rewrite (get_table_data_fetched _ _ _ _ _ Hout).
    do 3 eexists. split; [done|]. split; [done|]. apply Hwarn.
Qed.

Lemma truncation_signalled_by_warning_only_witness :
  exists (rows : list Dict) (w' : World (list Z)) (new : list LogRecord),
    execute_query toy_backend (toy_config 2)
      (mkQueryParams "SELECT x FROM t" None) (toy_world [1; 2; 3]%Z)
      = (inr rows, w') /\
    logs w' = logs (toy_world [1; 2; 3]%Z) ++ new /\
    (truncation_warning (toy_config 2) ∈ new <->
     (len (toy_rows [1; 2; 3]%Z) > MAX_RESULT_ROWS (toy_config 2))%Z).
Proof.
  apply (proj1 (truncation_signalled_by_warning_only toy_backend
                  (toy_config 2) (toy_world [1; 2; 3]%Z)
                  (toy_rows [1; 2; 3]%Z))
               (mkQueryParams "SELECT x FROM t" None)).
  reflexivity.
Defined.

(** C2, as stated, fails for a negative cap, which the configuration
    accepts: with [MAX_RESULT_ROWS = -1] a result of two rows exceeds the
    cap, and the slice [rows[:-1]] returns one row, not [MAX_RESULT_ROWS]
    rows. *)
Lemma negative_cap_returns_other_count :
  (len (toy_rows [1; 2]%Z) > MAX_RESULT_ROWS (toy_config (-1)))%Z /\
  exists rows : list Dict,
    (execute_query toy_backend (toy_config (-1))
       (mkQueryParams "SELECT x FROM t" None) (toy_world [1; 2]%Z)).1
      = inr rows /\
    len rows = 1%Z /\
    len rows <> MAX_RESULT_ROWS (toy_config (-1)).
Proof.
  split; [reflexivity|].
  eexists. split; [vm_compute; reflexivity|].
  split; [reflexivity|discriminate].
Qed.

(** C2, amended: provided [MAX_RESULT_ROWS] is not negative, a successful
    [execute_query] or [get_table_data] returns all rows, unchanged and in
    order, when the underlying result has at most [MAX_RESULT_ROWS] rows,
    and otherwise exactly its first [MAX_RESULT_ROWS] rows, a prefix of the
    ordered result. *)
Theorem rows_capped_to_stable_prefix
    {Store : Type} (backend : Backend Store) (config : DatabaseConfig)
    (w : World Store) (fetched : list RowMapping) :
  (0 <= MAX_RESULT_ROWS config)%Z ->
  let all_rows := map py_dict fetched in
  let expected (rows : list Dict) :=
    ((len fetched <= MAX_RESULT_ROWS config)%Z -> rows = all_rows) /\
    ((len fetched > MAX_RESULT_ROWS config)%Z ->
       rows = take (Z.to_nat (MAX_RESULT_ROWS config)) all_rows /\
       len rows = MAX_RESULT_ROWS config /\
       rows `prefix_of` all_rows) in
  (forall qp : QueryParams,
     read_outcome backend config w (query qp) (params_or_empty (params qp))
       = inr fetched ->
     exists rows, (execute_query backend config qp w).1 = inr rows /\
                  expected rows) /\
  (forall p : TableQueryParams,
     read_outcome backend config w (table_query p) ∅ = inr fetched ->
     exists rows, (get_table_data backend config p w).1 = inr rows /\
                  expected rows).
Proof.
  intros Hcap all_rows expected.
  assert (Hexp : expected (capped config fetched)).
  { unfold expected, capped, all_rows. split.
    - intros Hle. rewrite decide_False by lia. done.
    - intros Hgt. rewrite decide_True by done.
      split; [by apply py_slice_to_nonneg|].
      split; [|apply py_slice_to_prefix].
      apply py_slice_to_length; [done|]. by rewrite len_map. }
  split.
  - intros qp Hout. rewrite (execute_query_fetched _ _ _ _ _ Hout). eauto.
  - intros p Hout. rewrite (get_table_data_fetched _ _ _ _ _ Hout). eauto.
Qed.

Lemma rows_capped_to_stable_prefix_witness :
  exists rows : list Dict,
    (execute_query toy_backend (toy_config 2)
       (mkQueryParams "SELECT x FROM t" None) (toy_world [7; 8; 9]%Z)).1
      = inr rows /\
    rows = take 2 (map py_dict (toy_rows [7; 8; 9]%Z)).
Proof.
  destruct (proj1 (rows_capped_to_stable_prefix toy_backend (toy_config 2)
                     (toy_world [7; 8; 9]%Z) (toy_rows [7; 8; 9]%Z)
                     ltac:(cbn; lia))
                  (mkQueryParams "SELECT x FROM t" None) eq_refl)
    as (rows & Hrun & _ & Hcut).
  exists rows. split; [exact Hrun|].
  apply Hcut. reflexivity.
Defined.

(** ** The write path *)

Section WriteRuns.
Context {Store : Type}.
Variable backend : Backend Store.
Variable config : DatabaseConfig.
Variable qp : QueryParams.
Variable w : World Store.

Let sql := query qp.
Let bound := params_or_empty (params qp).

Lemma execute_write_no_connection e :
    checkout backend (engine config) (committed w) = Some e ->
    execute_write backend config qp w =
      (inl e,
       mkWorld (committed w) (session w) (journal w ++ [Begin])
         (logs w ++ [mkLogRecord ERROR ("执行写操作失败: " +:+ str e)])).
  Proof. py_unfold. by intros ->. Qed.

Lemma execute_write_statement_raised s e :
    checkout backend (engine config) (committed w) = None ->
    run backend (committed w) sql bound = (s, inl e) ->
    execute_write backend config qp w =
      (inl e,
       mkWorld (committed w) (committed w)
         (journal w ++ [Begin; Execute sql bound; Rollback; Close])
         (logs w ++ [mkLogRecord ERROR ("执行写操作失败: " +:+ str e)])).
  Proof.
    subst sql bound. py_unfold. intros -> ->. cbn.
    by rewrite <- !(assoc_L (++)).
  Qed.

Lemma execute_write_commit_raised s cur e :
    checkout backend (engine config) (committed w) = None ->
    run backend (committed w) sql bound = (s, inr cur) ->
    commit_error backend s = Some e ->
    execute_write backend config qp w =
      (inl e,
       mkWorld (committed w) (committed w)
         (journal w ++ [Begin; Execute sql bound; Commit; Close])
         (logs w ++
            [mkLogRecord INFO
               ("写操作成功，影响" +:+ pretty (rowcount cur) +:+ "行");
             mkLogRecord ERROR ("执行写操作失败: " +:+ str e)])).
  Proof.
    subst sql bound. py_unfold. intros -> ->. cbn. intros ->. cbn.
    by rewrite <- !(assoc_L (++)).
  Qed.

Lemma execute_write_committed s cur :
    checkout backend (engine config) (committed w) = None ->
    run backend (committed w) sql bound = (s, inr cur) ->
    commit_error backend s = None ->
    execute_write backend config qp w =
      (inr (py_dict [ ("status", PyStr "success");
                      ("affected_rows", PyInt (rowcount cur));
                      ("lastrowid", PyInt (lastrowid cur)) ]),
       mkWorld s s
         (journal w ++ [Begin; Execute sql bound; Commit; Close])
         (logs w ++
            [mkLogRecord INFO
               ("写操作成功，影响" +:+ pretty (rowcount cur) +:+ "行")])).
  Proof.
    subst sql bound. py_unfold. intros -> ->. cbn. intros ->. cbn.
    by rewrite <- !(assoc_L (++)).
  Qed.
End WriteRuns.

(** C3: when the statement of an [execute_write] call raises during
    execution, the transaction is rolled back and the committed content of
    the database is what it was before the call, the exception is raised to
    the caller and nothing reporting an affected-row count is returned or
    logged; when statement and commit succeed, the content the statement
    produced is committed as a whole and the row count is returned. *)
Theorem execute_write_rolls_back_on_failure
    {Store : Type} (backend : Backend Store) (config : DatabaseConfig)
    (qp : QueryParams) (w : World Store) :
  checkout backend (engine config) (committed w) = None ->
  let sql := query qp in
  let bound := params_or_empty (params qp) in
  (forall s e,
     run backend (committed w) sql bound = (s, inl e) ->
     exists w',
       execute_write backend config qp w = (inl e, w') /\
       committed w' = committed w /\
       session w' = committed w /\
       journal w' = journal w ++ [Begin; Execute sql bound; Rollback; Close] /\
       logs w' = logs w ++
         [mkLogRecord ERROR ("执行写操作失败: " +:+ str e)]) /\
  (forall s cur,
     run backend (committed w) sql bound = (s, inr cur) ->
     commit_error backend s = None ->
     exists payload w',
       execute_write backend config qp w = (inr payload, w') /\
       payload !! "affected_rows" = Some (PyInt (rowcount cur)) /\
       committed w' = s /\
       journal w' = journal w ++ [Begin; Execute sql bound; Commit; Close]).
Proof.
  intros Hconn sql bound. split.
  - intros s e Hrun.
    rewrite (execute_write_statement_raised _ _ _ _ s e Hconn Hrun).
    eexists. repeat split.
  - intros s cur Hrun Hcommit.
    rewrite (execute_write_committed _ _ _ _ s cur Hconn Hrun Hcommit).
    do 2 eexists. repeat split.
Qed.

Lemma execute_write_rolls_back_on_failure_witness :
  (exists w',
     execute_write toy_backend (toy_config 10)
       (mkQueryParams "INSERT INTO t(x) VALUES(:v),(NULL)"
          (Some {[ "v" := PyInt 5 ]}))
       (toy_world [1; 2]%Z)
       = (inl (mkException "IntegrityError" "Column 'x' cannot be null"), w') /\
     committed w' = [1; 2]%Z) /\
  (exists payload w',
     execute_write toy_backend (toy_config 10)
       (mkQueryParams "INSERT INTO t(x) VALUES(:v)"
          (Some {[ "v" := PyInt 5 ]}))
       (toy_world [1; 2]%Z)
       = (inr payload, w') /\
     payload !! "affected_rows" = Some (PyInt 1) /\
     committed w' = [1; 2; 5]%Z).
Proof.
  split.
  - destruct (proj1 (execute_write_rolls_back_on_failure toy_backend
                       (toy_config 10)
                       (mkQueryParams "INSERT INTO t(x) VALUES(:v),(NULL)"
                          (Some {[ "v" := PyInt 5 ]}))
                       (toy_world [1; 2]%Z) ltac:(reflexivity))
                    [1; 2; 5]%Z
                    (mkException "IntegrityError" "Column 'x' cannot be null")
                    ltac:(vm_compute; reflexivity))
      as (w' & Hrun & Hdb & _).
    exists w'. split; [exact Hrun | exact Hdb].
  - destruct (proj2 (execute_write_rolls_back_on_failure toy_backend
                       (toy_config 10)
                       (mkQueryParams "INSERT INTO t(x) VALUES(:v)"
                          (Some {[ "v" := PyInt 5 ]}))
                       (toy_world [1; 2]%Z) ltac:(reflexivity))
                    [1; 2; 5]%Z
                    (mkCursorResult
                       (inl (mkException "ResourceClosedError"
                               "This result object does not return rows."))
                       1 3)
                    ltac:(vm_compute; reflexivity) ltac:(reflexivity))
      as (payload & w' & Hrun & Hrows & Hdb & _).
    exists payload, w'. split; [exact Hrun|]. split; [exact Hrows | exact Hdb].
Defined.

(** ** Statement texts and bound parameters *)

Section Statements.
Context {Store : Type}.
Variable backend : Backend Store.
Variable config : DatabaseConfig.

Lemma statements_app j1 j2 :
    statements (j1 ++ j2) = statements j1 ++ statements j2.
  Proof. apply omap_app. Qed.

Lemma bindings_app j1 j2 :
    bindings (j1 ++ j2) = bindings j1 ++ bindings j2.
  Proof. apply omap_app. Qed.

Lemma execute_query_journal qp w :
    journal (execute_query backend config qp w).2 =
      journal w ++
      Connect ::
      handed_over backend config w (Execute (query qp) (params_or_empty (params qp))) ++
      handed_over backend config w Close.
  Proof.
    unfold handed_over. py_unfold.
    destruct (checkout _ _ _); [done|].
    destruct (run _ _ _ _) as [s [e|cur]]; cbn.
    { by rewrite <- !(assoc_L (++)). }
    destruct (fetch cur); cbn; [by rewrite <- !(assoc_L (++))|].
    case_decide; cbn; by rewrite <- !(assoc_L (++)).
  Qed.

Lemma execute_write_journal qp w :
    exists ending,
      (ending = Commit \/ ending = Rollback) /\
      journal (execute_write backend config qp w).2 =
        journal w ++
        Begin ::
        handed_over backend config w (Execute (query qp) (params_or_empty (params qp))) ++
        handed_over backend config w ending ++ handed_over backend config w Close.
  Proof.
    unfold handed_over. py_unfold.
    destruct (checkout _ _ _); [by exists Commit; auto|].
    destruct (run _ _ _ _) as [s [e|cur]]; cbn.
    { exists Rollback. split; [auto|]. by rewrite <- !(assoc_L (++)). }
    exists Commit. split; [auto|].
    destruct (commit_error _ _); cbn; by rewrite <- !(assoc_L (++)).
  Qed.

Lemma execute_query_statements qp w :
    statements (journal (execute_query backend config qp w).2) =
      statements (journal w) ++ handed_over backend config w (query qp) /\
    bindings (journal (execute_query backend config qp w).2) =
      bindings (journal w) ++ handed_over backend config w (params_or_empty (params qp)).
  Proof.
    rewrite execute_query_journal, statements_app, bindings_app.
    unfold handed_over. by destruct (checkout _ _ _).
  Qed.

Lemma execute_write_statements qp w :
    statements (journal (execute_write backend config qp w).2) =
      statements (journal w) ++ handed_over backend config w (query qp) /\
    bindings (journal (execute_write backend config qp w).2) =
      bindings (journal w) ++ handed_over backend config w (params_or_empty (params qp)).
  Proof.
    destruct (execute_write_journal qp w) as (ending & Hend & ->).
    rewrite statements_app, bindings_app.
    unfold handed_over. destruct (checkout _ _ _); [done|].
    by destruct Hend as [-> | ->].
  Qed.
End Statements.

(** C4: in [execute_query] and [execute_write] the statement text handed to
    the library is the caller's query text itself, whatever the parameter
    values are, and the (possibly defaulted) parameter dictionary travels
    next to it as bound values; two calls with the same text and different
    parameters hand over the same statement texts. *)
Theorem sql_text_independent_of_parameters
    {Store : Type} (backend : Backend Store) (config : DatabaseConfig)
    (q : string) (w : World Store) :
  (forall p,
     let w' := (execute_query backend config (mkQueryParams q p) w).2 in
     statements (journal w') =
       statements (journal w) ++ handed_over backend config w q /\
     bindings (journal w') =
       bindings (journal w) ++
       handed_over backend config w (params_or_empty p)) /\
  (forall p,
     let w' := (execute_write backend config (mkQueryParams q p) w).2 in
     statements (journal w') =
       statements (journal w) ++ handed_over backend config w q /\
     bindings (journal w') =
       bindings (journal w) ++
       handed_over backend config w (params_or_empty p)) /\
  (forall p1 p2,
     statements
       (journal (execute_query backend config (mkQueryParams q p1) w).2) =
     statements
       (journal (execute_query backend config (mkQueryParams q p2) w).2) /\
     statements
       (journal (execute_write backend config (mkQueryParams q p1) w).2) =
     statements
       (journal (execute_write backend config (mkQueryParams q p2) w).2)).
Proof.
  split; [|split].
  - intros p. apply (execute_query_statements backend config
                       (mkQueryParams q p) w).
  - intros p. apply (execute_write_statements backend config
                       (mkQueryParams q p) w).
  - intros p1 p2. split.
    + rewrite (proj1 (execute_query_statements backend config
                        (mkQueryParams q p1) w)).
      by rewrite (proj1 (execute_query_statements backend config
                           (mkQueryParams q p2) w)).
    + rewrite (proj1 (execute_write_statements backend config
                        (mkQueryParams q p1) w)).
      by rewrite (proj1 (execute_write_statements backend config
                           (mkQueryParams q p2) w)).
Qed.

(** ** Validation of [get_table_data] requests *)

(** C5: a [get_table_data] request whose [limit] lies outside [1, 1000] is
    rejected with a validation error and leaves the world as it was (no
    library call, so no database access); a request without [limit] is
    validated with [limit = 100]. *)
Theorem limit_validated_before_database_access
    {Store : Type} (backend : Backend Store) (config : DatabaseConfig)
    (args : TableQueryArgs) (w : World Store) :
  (forall l,
     arg_limit args = Some l -> (l < 1 \/ 1000 < l)%Z ->
     exists e,
       call_get_table_data backend config args w = (inl e, w) /\
       exc_class e = "ValidationError") /\
  (forall t,
     arg_table_name args = Some t -> arg_limit args = None ->
     exists p, TableQueryParams_validate args = inr p /\ limit p = 100%Z).
Proof.
  split.
  - intros l Hl Hout. unfold call_get_table_data, TableQueryParams_validate.
    rewrite Hl. cbn.
    destruct (arg_table_name args); [|by eexists].
    destruct (Z.leb_spec 1 l); cbn; [|by eexists].
    destruct (Z.leb_spec l 1000); cbn; [lia|by eexists].
  - intros t Ht Hl. unfold TableQueryParams_validate. rewrite Ht, Hl. cbn.
    by eexists.
Qed.

Lemma limit_validated_before_database_access_witness :
  (exists e,
     call_get_table_data toy_backend (toy_config 1000)
       (mkTableQueryArgs (Some "t") None None None (Some 0%Z) None)
       (toy_world [1]%Z) = (inl e, toy_world [1]%Z) /\
     exc_class e = "ValidationError") /\
  (exists e,
     call_get_table_data toy_backend (toy_config 1000)
       (mkTableQueryArgs (Some "t") None None None (Some 1001%Z) None)
       (toy_world [1]%Z) = (inl e, toy_world [1]%Z) /\
     exc_class e = "ValidationError") /\
  (exists p,
     TableQueryParams_validate
       (mkTableQueryArgs (Some "t") None None None None None) = inr p /\
     limit p = 100%Z).
Proof.
  split; [|split].
  - apply (proj1 (limit_validated_before_database_access toy_backend
                    (toy_config 1000)
                    (mkTableQueryArgs (Some "t") None None None (Some 0%Z) None)
                    (toy_world [1]%Z)) 0%Z); [reflexivity | lia].
  - apply (proj1 (limit_validated_before_database_access toy_backend
                    (toy_config 1000)
                    (mkTableQueryArgs (Some "t") None None None
                       (Some 1001%Z) None)
                    (toy_world [1]%Z)) 1001%Z); [reflexivity | lia].
  - apply (proj2 (limit_validated_before_database_access toy_backend
                    (toy_config 1000)
                    (mkTableQueryArgs (Some "t") None None None None None)
                    (toy_world [1]%Z)) "t"); reflexivity.
Defined.

Lemma get_table_data_journal
    {Store : Type} (backend : Backend Store) (config : DatabaseConfig)
    (p : TableQueryParams) (w : World Store) :
  journal (get_table_data backend config p w).2 =
    journal w ++
    Connect ::
    handed_over backend config w (Execute (table_query p) ∅) ++
    handed_over backend config w Close.
Proof.
  unfold handed_over. py_unfold.
  destruct (checkout _ _ _); [done|].
  destruct (run _ _ _ _) as [s [e|cur]]; cbn.
  { by rewrite <- !(assoc_L (++)). }
  destruct (fetch cur); cbn; [by rewrite <- !(assoc_L (++))|].
  case_decide; cbn; by rewrite <- !(assoc_L (++)).
Qed.

(** C6, on the code: [offset] is declared without a constraint, so every
    offset, a negative one included, passes validation, is written into the
    statement text and the call goes on to the database; for [offset = -1]
    on table [t] the statement executed is
    [SELECT * FROM t LIMIT 100 OFFSET -1]. An omitted offset is validated
    as [0]. *)
Theorem negative_offset_reaches_database
    {Store : Type} (backend : Backend Store) (config : DatabaseConfig)
    (w : World Store) (t : string) (o : Z) :
  (exists p rest,
     TableQueryParams_validate
       (mkTableQueryArgs (Some t) None None None None (Some o)) = inr p /\
     offset p = o /\
     journal
       (call_get_table_data backend config
          (mkTableQueryArgs (Some t) None None None None (Some o)) w).2
       = journal w ++ Connect :: rest) /\
  journal
    (call_get_table_data toy_backend (toy_config 1000)
       (mkTableQueryArgs (Some "t") None None None None (Some (-1)%Z))
       (toy_world [1]%Z)).2
    = [Connect; Execute "SELECT * FROM t LIMIT 100 OFFSET -1" ∅; Close] /\
  (exists p,
     TableQueryParams_validate
       (mkTableQueryArgs (Some t) None None None None None) = inr p /\
     offset p = 0%Z).
Proof.
  split; [|split].
  - do 2 eexists. split; [reflexivity|]. split; [reflexivity|].
    unfold call_get_table_data. cbn [TableQueryParams_validate arg_table_name
      arg_limit default negb Z.leb Z.compare Pos.compare Pos.compare_cont].
    cbn. rewrite get_table_data_journal. reflexivity.
  - vm_compute. reflexivity.
  - eexists. split; reflexivity.
Qed.

(** ** Propagation of failures *)

Section Propagation.
Context {Store : Type}.
Variable backend : Backend Store.
Variable config : DatabaseConfig.
Variable w : World Store.

Lemma last_logs_snoc (pre : list LogRecord) (r : LogRecord) :
    last (pre ++ [r]) = Some r.
  Proof. apply last_snoc. Qed.

Lemma list_tables_propagates :
    (list_tables backend config w).1 =
      get_table_names backend (engine config) (committed w) /\
    (forall e,
       (list_tables backend config w).1 = inl e ->
       logged_error (list_tables backend config w).2
         ("获取表列表失败: " +:+ str e)).
  Proof.
    unfold logged_error. py_unfold.
    destruct (get_table_names _ _ _) as [e|names]; cbn; split; try done.
    intros ? [= <-]. apply last_logs_snoc.
  Qed.

Lemma describe_table_propagates t :
    (describe_table backend config t w).1 =
      on_success (map column_info)
        (get_columns backend (engine config) (committed w) t) /\
    (forall e,
       (describe_table backend config t w).1 = inl e ->
       logged_error (describe_table backend config t w).2
         ("获取表结构失败[" +:+ t +:+ "]: " +:+ str e)).
  Proof.
    unfold logged_error. py_unfold.
    destruct (get_columns _ _ _ _) as [e|cols]; cbn; split; try done.
    intros ? [= <-]. apply last_logs_snoc.
  Qed.

Lemma execute_query_propagates qp :
    (execute_query backend config qp w).1 =
      on_success (capped config)
        (read_outcome backend config w (query qp)
           (params_or_empty (params qp))) /\
    (forall e,
       (execute_query backend config qp w).1 = inl e ->
       logged_error (execute_query backend config qp w).2
         ("执行查询失败: " +:+ str e)).
  Proof.
    unfold logged_error.
    destruct (read_outcome backend config w (query qp)
                (params_or_empty (params qp))) as [e|fetched] eqn:Hout.
    - destruct (execute_query_raised _ _ _ _ _ Hout) as (w' & -> & _ & Hlog).
      cbn. split; [done|]. intros ? [= <-]. rewrite Hlog.
      apply last_logs_snoc.
    - rewrite (execute_query_fetched _ _ _ _ _ Hout). cbn. by split.
  Qed.

Lemma get_table_data_propagates p :
    (get_table_data backend config p w).1 =
      on_success (capped config)
        (read_outcome backend config w (table_query p) ∅) /\
    (forall e,
       (get_table_data backend config p w).1 = inl e ->
       logged_error (get_table_data backend config p w).2
         ("获取表数据失败[" +:+ table_name p +:+ "]: " +:+ str e)).
  Proof.
    unfold logged_error.
    destruct (read_outcome backend config w (table_query p) ∅)
      as [e|fetched] eqn:Hout.
    - destruct (get_table_data_raised _ _ _ _ _ Hout) as (w' & -> & _ & Hlog).
      cbn. split; [done|]. intros ? [= <-]. rewrite Hlog.
      apply last_logs_snoc.
    - rewrite (get_table_data_fetched _ _ _ _ _ Hout). cbn. by split.
  Qed.

Lemma execute_write_propagates qp :
    (execute_write backend config qp w).1 =
      on_success write_payload
        (write_outcome backend config w (query qp)
           (params_or_empty (params qp))) /\
    (forall e,
       (execute_write backend config qp w).1 = inl e ->
       logged_error (execute_write backend config qp w).2
         ("执行写操作失败: " +:+ str e)).
  Proof.
    unfold logged_error, write_outcome, write_payload.
    destruct (checkout backend (engine config) (committed w))
      as [e|] eqn:Hconn.
    { rewrite (execute_write_no_connection _ _ _ _ e Hconn). cbn.
      split; [done|]. intros ? [= <-]. apply last_logs_snoc. }
    destruct (run backend (committed w) (query qp)
                (params_or_empty (params qp))) as [s [e|cur]] eqn:Hrun.
    { rewrite (execute_write_statement_raised _ _ _ _ s e Hconn Hrun). cbn.
      split; [done|]. intros ? [= <-]. apply last_logs_snoc. }
    destruct (commit_error backend s) as [e|] eqn:Hcommit.
    - rewrite (execute_write_commit_raised _ _ _ _ s cur e Hconn Hrun Hcommit).
      cbn. split; [done|]. intros ? [= <-].
      change (logs w ++ [?a; ?b]) with (logs w ++ [a] ++ [b]).
      rewrite (assoc_L (++)). apply last_logs_snoc.
    - rewrite (execute_write_committed _ _ _ _ s cur Hconn Hrun Hcommit).
      cbn. by split.
  Qed.
End Propagation.

(** C7: each of the five operations returns a payload exactly when the
    underlying library calls succeeded; when one of them raised, the
    operation raises that very exception, after logging an ERROR record
    that carries its text. No operation turns a failure into a payload. *)
Theorem failures_reraised_unmodified
    {Store : Type} (backend : Backend Store) (config : DatabaseConfig)
    (w : World Store) :
  ((list_tables backend config w).1 =
     get_table_names backend (engine config) (committed w) /\
   (forall e,
      (list_tables backend config w).1 = inl e ->
      logged_error (list_tables backend config w).2
        ("获取表列表失败: " +:+ str e))) /\
  (forall t,
     (describe_table backend config t w).1 =
       on_success (map column_info)
         (get_columns backend (engine config) (committed w) t) /\
     (forall e,
        (describe_table backend config t w).1 = inl e ->
        logged_error (describe_table backend config t w).2
          ("获取表结构失败[" +:+ t +:+ "]: " +:+ str e))) /\
  (forall qp,
     (execute_query backend config qp w).1 =
       on_success (capped config)
         (read_outcome backend config w (query qp)
            (params_or_empty (params qp))) /\
     (forall e,
        (execute_query backend config qp w).1 = inl e ->
        logged_error (execute_query backend config qp w).2
          ("执行查询失败: " +:+ str e))) /\
  (forall qp,
     (execute_write backend config qp w).1 =
       on_success write_payload
         (write_outcome backend config w (query qp)
            (params_or_empty (params qp))) /\
     (forall e,
        (execute_write backend config qp w).1 = inl e ->
        logged_error (execute_write backend config qp w).2
          ("执行写操作失败: " +:+ str e))) /\
  (forall p,
     (get_table_data backend config p w).1 =
       on_success (capped config)
         (read_outcome backend config w (table_query p) ∅) /\
     (forall e,
        (get_table_data backend config p w).1 = inl e ->
        logged_error (get_table_data backend config p w).2
          ("获取表数据失败[" +:+ table_name p +:+ "]: " +:+ str e))).
Proof.
  split; [apply list_tables_propagates|].
  split; [intros t; apply describe_table_propagates|].
  split; [intros qp; apply execute_query_propagates|].
  split; [intros qp; apply execute_write_propagates|].
  intros p. apply get_table_data_propagates.
Qed.

Lemma failures_reraised_unmodified_witness :
  (execute_query toy_backend (toy_config 10)
     (mkQueryParams "SELEC x" None) (toy_world [1]%Z)).1
    = inl (mkException "ProgrammingError"
             "You have an error in your SQL syntax") /\
  logged_error
    (execute_query toy_backend (toy_config 10)
       (mkQueryParams "SELEC x" None) (toy_world [1]%Z)).2
    ("执行查询失败: You have an error in your SQL syntax").
Proof.
  pose proof (proj1 (proj2 (proj2 (failures_reraised_unmodified toy_backend
                 (toy_config 10) (toy_world [1]%Z))))
                (mkQueryParams "SELEC x" None)) as [Hres Hlog].
  split.
  - exact Hres.
  - apply (Hlog (mkException "ProgrammingError"
                   "You have an error in your SQL syntax")).
    exact Hres.
Defined.

(** C8: given that the reflection API raises for a table that is not in the
    database, [describe_table] on such a table raises that exception; it
    does not return a column list, in particular not the empty one. *)
Theorem describe_table_missing_table_raises
    {Store : Type} (backend : Backend Store) (config : DatabaseConfig)
    (w : World Store) (names : list string) (t : string) :
  reflects_missing_tables backend ->
  get_table_names backend (engine config) (committed w) = inr names ->
  t ∉ names ->
  exists e,
    get_columns backend (engine config) (committed w) t = inl e /\
    (describe_table backend config t w).1 = inl e /\
    (describe_table backend config t w).1 <> inr [] /\
    logged_error (describe_table backend config t w).2
      ("获取表结构失败[" +:+ t +:+ "]: " +:+ str e).
Proof.
  intros Hlib Hnames Hmiss.
  destruct (Hlib _ _ _ _ Hnames Hmiss) as [e He].
  destruct (describe_table_propagates backend config w t) as [Hres Hlog].
  rewrite He in Hres. cbn in Hres.
  exists e. split; [done|]. split; [done|].
  split; [by rewrite Hres|]. by apply Hlog.
Qed.

Lemma toy_backend_reflects_missing_tables :
  reflects_missing_tables toy_backend.
Proof.
  intros eng s names t [= <-] Hmiss. cbn. unfold toy_columns.
  destruct (String.eqb_spec t "t") as [->|Hne]; [|by eexists].
  exfalso. apply Hmiss. apply list_elem_of_singleton. done.
Defined.

Lemma describe_table_missing_table_raises_witness :
  exists e,
    get_columns toy_backend (engine (toy_config 10))
      (committed (toy_world [1]%Z)) "orders" = inl e /\
    (describe_table toy_backend (toy_config 10) "orders"
       (toy_world [1]%Z)).1 = inl e /\
    (describe_table toy_backend (toy_config 10) "orders"
       (toy_world [1]%Z)).1 <> inr [] /\
    logged_error
      (describe_table toy_backend (toy_config 10) "orders"
         (toy_world [1]%Z)).2
      ("获取表结构失败[" +:+ "orders" +:+ "]: " +:+ str e).
Proof.
  apply (describe_table_missing_table_raises toy_backend (toy_config 10)
           (toy_world [1]%Z) ["t"] "orders").
  - exact toy_backend_reflects_missing_tables.
  - reflexivity.
  - intros Hin. apply list_elem_of_singleton in Hin. discriminate Hin.
Defined.

(** ** The query timeout *)

Section Timeout.
Context {Store : Type}.
Variable backend : Backend Store.
Variable config : DatabaseConfig.
Variable t : Z.

Let config' := with_QUERY_TIMEOUT t config.

Lemma engine_with_QUERY_TIMEOUT :
    create_db_engine config' =
      with_url_query_arg "connect_timeout" (pretty t) (create_db_engine config).
  Proof. reflexivity. Qed.

Lemma operations_ignore_QUERY_TIMEOUT (w : World Store) :
    same_connections backend config t ->
    list_tables backend config' w = list_tables backend config w /\
    (forall tb,
       describe_table backend config' tb w = describe_table backend config tb w) /\
    (forall qp,
       execute_query backend config' qp w = execute_query backend config qp w) /\
    (forall qp,
       execute_write backend config' qp w = execute_write backend config qp w) /\
    (forall p,
       get_table_data backend config' p w = get_table_data backend config p w).
  Proof.
    intros (Hconn & Hnames & Hcols).
    repeat split; intros; py_unfold;
      rewrite ?Hconn, ?Hnames, ?Hcols; reflexivity.
  Qed.
End Timeout.

(** C10: [QUERY_TIMEOUT] enters the engine only as the URL query argument
    [connect_timeout], next to [charset] and nothing else; changing it
    changes that argument and no other part of the engine description;
    statements are handed to the library with their text and bound values
    only, so as long as connections are obtained alike, every operation
    behaves the same for every value of [QUERY_TIMEOUT]. *)
Theorem query_timeout_is_connect_timeout_only
    {Store : Type} (backend : Backend Store) (config : DatabaseConfig)
    (t : Z) (w : World Store) :
  let config' := with_QUERY_TIMEOUT t config in
  url_query (url (create_db_engine config)) =
    [ ("charset", "utf8mb4");
      ("connect_timeout", pretty (QUERY_TIMEOUT config)) ] /\
  create_db_engine config' =
    with_url_query_arg "connect_timeout" (pretty t) (create_db_engine config) /\
  (same_connections backend config t ->
   list_tables backend config' w = list_tables backend config w /\
   (forall tb,
      describe_table backend config' tb w = describe_table backend config tb w) /\
   (forall qp,
      execute_query backend config' qp w = execute_query backend config qp w) /\
   (forall qp,
      execute_write backend config' qp w = execute_write backend config qp w) /\
   (forall p,
      get_table_data backend config' p w = get_table_data backend config p w)).
Proof.
  intros config'. split; [reflexivity|]. split.
  - apply engine_with_QUERY_TIMEOUT.
  - apply operations_ignore_QUERY_TIMEOUT.
Qed.

Lemma toy_backend_same_connections (c : DatabaseConfig) (t : Z) :
  same_connections toy_backend c t.
Proof. repeat split. Defined.

Lemma query_timeout_is_connect_timeout_only_witness :
  url_query (url (create_db_engine (toy_config 10))) =
    [ ("charset", "utf8mb4"); ("connect_timeout", "30") ] /\
  execute_query toy_backend (with_QUERY_TIMEOUT 1 (toy_config 10))
    (mkQueryParams "SELECT x FROM t" None) (toy_world [1; 2]%Z)
  = execute_query toy_backend (toy_config 10)
      (mkQueryParams "SELECT x FROM t" None) (toy_world [1; 2]%Z).
Proof.
  destruct (query_timeout_is_connect_timeout_only toy_backend (toy_config 10)
              1 (toy_world [1; 2]%Z)) as (Hurl & _ & Hops).
  split.
  - exact Hurl.
  - apply (Hops (toy_backend_same_connections (toy_config 10) 1)).
Defined.

(** * Further properties of the module *)

(** ** Connections *)

Lemma last_after_middle {A : Type} (pre mid : list A) (x : A) :
  last (pre ++ mid ++ [x]) = Some x.
Proof. rewrite (assoc_L (++)). apply last_snoc. Qed.

(** X1: once a connection was obtained, [execute_query], [execute_write]
    and [get_table_data] close it on every path, whether the statement
    succeeded, raised, or the commit raised: [Close] is the last library
    call of the operation. *)
Theorem connection_closed_on_every_path
    {Store : Type} (backend : Backend Store) (config : DatabaseConfig)
    (w : World Store) :
  checkout backend (engine config) (committed w) = None ->
  (forall qp,
     last (journal (execute_query backend config qp w).2) = Some Close) /\
  (forall qp,
     last (journal (execute_write backend config qp w).2) = Some Close) /\
  (forall p,
     last (journal (get_table_data backend config p w).2) = Some Close).
Proof.
  intros Hconn. split; [|split].
  - intros qp. rewrite execute_query_journal. unfold handed_over.
    rewrite Hconn. apply (last_after_middle (journal w) [Connect; _]).
  - intros qp. destruct (execute_write_journal backend config qp w)
      as (ending & _ & ->). unfold handed_over. rewrite Hconn.
    apply (last_after_middle (journal w) [Begin; _; _]).
  - intros p. rewrite get_table_data_journal. unfold handed_over.
    rewrite Hconn. apply (last_after_middle (journal w) [Connect; _]).
Qed.

Lemma connection_closed_on_every_path_witness :
  last (journal
          (execute_write toy_backend (toy_config 10)
             (mkQueryParams "INSERT INTO t(x) VALUES(:v),(NULL)"
                (Some {[ "v" := PyInt 5 ]}))
             (toy_world [1]%Z)).2) = Some Close.
Proof.
  apply (proj1 (proj2 (connection_closed_on_every_path toy_backend
                         (toy_config 10) (toy_world [1]%Z) eq_refl))).
Defined.

(** X2: when no connection can be obtained, [execute_query],
    [execute_write] and [get_table_data] raise the pool's exception, hand
    no statement to the library, leave the database as it was and log one
    ERROR record. *)
Theorem no_connection_no_statement
    {Store : Type} (backend : Backend Store) (config : DatabaseConfig)
    (w : World Store) (e : Exception) :
  checkout backend (engine config) (committed w) = Some e ->
  let untouched (w' : World Store) (msg : string) :=
    committed w' = committed w /\ session w' = session w /\
    statements (journal w') = statements (journal w) /\
    logs w' = logs w ++ [mkLogRecord ERROR msg] in
  (forall qp,
     (execute_query backend config qp w).1 = inl e /\
     untouched (execute_query backend config qp w).2
       ("执行查询失败: " +:+ str e)) /\
  (forall qp,
     (execute_write backend config qp w).1 = inl e /\
     untouched (execute_write backend config qp w).2
       ("执行写操作失败: " +:+ str e)) /\
  (forall p,
     (get_table_data backend config p w).1 = inl e /\
     untouched (get_table_data backend config p w).2
       ("获取表数据失败[" +:+ table_name p +:+ "]: " +:+ str e)).
Proof.
  intros Hconn untouched. unfold untouched.
  split; [|split]; intros x; py_unfold; rewrite Hconn; cbn;
    rewrite statements_app; cbn; rewrite (right_id_L [] (++)); repeat split.
Qed.

Lemma no_connection_no_statement_witness :
  (execute_write unreachable_backend (toy_config 10)
     (mkQueryParams "INSERT INTO t(x) VALUES(:v)" (Some {[ "v" := PyInt 5 ]}))
     (toy_world [1]%Z)).1
    = inl (mkException "OperationalError" "Can't connect to MySQL server") /\
  statements
    (journal
       (execute_write unreachable_backend (toy_config 10)
          (mkQueryParams "INSERT INTO t(x) VALUES(:v)"
             (Some {[ "v" := PyInt 5 ]}))
          (toy_world [1]%Z)).2) = [].
Proof.
  destruct (proj1 (proj2 (no_connection_no_statement unreachable_backend
                            (toy_config 10) (toy_world [1]%Z)
                            (mkException "OperationalError"
                               "Can't connect to MySQL server") eq_refl))
                  (mkQueryParams "INSERT INTO t(x) VALUES(:v)"
                     (Some {[ "v" := PyInt 5 ]})))
    as (Hres & _ & _ & Hst & _).
  split; [exact Hres | exact Hst].
Defined.


(** X4: [execute_write] logs its success record before the transaction is
    committed. When the statement succeeded and the commit raises, the
    caller gets the commit's exception, nothing is committed, and the log
    holds the INFO record announcing the affected rows followed by the
    ERROR record. *)
Theorem commit_failure_after_success_record
    {Store : Type} (backend : Backend Store) (config : DatabaseConfig)
    (qp : QueryParams) (w : World Store)
    (s : Store) (cur : CursorResult) (e : Exception) :
  checkout backend (engine config) (committed w) = None ->
  run backend (committed w) (query qp) (params_or_empty (params qp))
    = (s, inr cur) ->
  commit_error backend s = Some e ->
  let r := execute_write backend config qp w in
  r.1 = inl e /\
  committed r.2 = committed w /\
  session r.2 = committed w /\
  logs r.2 = logs w ++
    [ mkLogRecord INFO ("写操作成功，影响" +:+ pretty (rowcount cur) +:+ "行");
      mkLogRecord ERROR ("执行写操作失败: " +:+ str e) ].
Proof.
  intros Hconn Hrun Hcommit r. unfold r.
  by rewrite (execute_write_commit_raised _ _ _ _ s cur e Hconn Hrun Hcommit).
Qed.

Lemma commit_failure_after_success_record_witness :
  let r := execute_write commit_failing_backend (toy_config 10)
             (mkQueryParams "INSERT INTO t(x) VALUES(:v)"
                (Some {[ "v" := PyInt 5 ]}))
             (toy_world [1]%Z) in
  r.1 = inl (mkException "OperationalError"
               "Lost connection to MySQL server during query") /\
  committed r.2 = [1]%Z /\
  logs r.2 =
    [ mkLogRecord INFO "写操作成功，影响1行";
      mkLogRecord ERROR
        "执行写操作失败: Lost connection to MySQL server during query" ].
Proof.
  destruct (commit_failure_after_success_record commit_failing_backend
              (toy_config 10)
              (mkQueryParams "INSERT INTO t(x) VALUES(:v)"
                 (Some {[ "v" := PyInt 5 ]}))
              (toy_world [1]%Z) [1; 5]%Z
              (mkCursorResult
                 (inl (mkException "ResourceClosedError"
                         "This result object does not return rows."))
                 1 2)
              (mkException "OperationalError"
                 "Lost connection to MySQL server during query")
              ltac:(reflexivity) ltac:(vm_compute; reflexivity)
              ltac:(reflexivity))
    as (Hres & Hdb & _ & Hlog).
  split; [exact Hres|]. split; [exact Hdb | exact Hlog].
Defined.

(** ** Rows *)

Lemma py_dict_snoc (items : list (string * PyValue)) (k : string) (v : PyValue) :
  py_dict (items ++ [(k, v)]) = <[k := v]> (py_dict items).
Proof. unfold py_dict. by rewrite foldl_app. Qed.

Lemma py_dict_dom (items : list (string * PyValue)) :
  dom (py_dict items) = list_to_set items.*1.
Proof.
  induction items as [|[k v] items IH] using rev_ind; [done|].
  rewrite py_dict_snoc, dom_insert_L, IH, fmap_app, list_to_set_app_L. cbn.
  rewrite (right_id_L ∅ (∪)). apply (comm_L (∪)).
Qed.

Lemma py_dict_lookup (items : list (string * PyValue)) (k : string) (v : PyValue) :
  NoDup items.*1 -> (k, v) ∈ items -> py_dict items !! k = Some v.
Proof.
  induction items as [|[k' v'] items IH] using rev_ind.
  { intros _ Hin. by apply elem_of_nil in Hin. }
  rewrite fmap_app, py_dict_snoc. cbn.
  intros [Hnd [Hfresh _]]%NoDup_app Hin.
  apply elem_of_app in Hin as [Hin|Hin].
  - rewrite lookup_insert_ne; [by apply IH|].
    intros ->. apply (Hfresh k); [|apply list_elem_of_singleton; done].
    apply list_elem_of_fmap. by exists (k, v).
  - apply list_elem_of_singleton in Hin as [= -> ->].
    by rewrite lookup_insert_eq.
Qed.

Lemma capped_is_take (config : DatabaseConfig) (fetched : list RowMapping) :
  exists n, capped config fetched = take n (map py_dict fetched).
Proof.
  unfold capped, py_slice_to. case_decide.
  - case_decide; eauto.
  - exists (length fetched). rewrite firstn_all2; [done|].
    by rewrite length_map.
Qed.

Lemma capped_lookup (config : DatabaseConfig) (fetched : list RowMapping)
    (i : nat) (d : Dict) :
  capped config fetched !! i = Some d ->
  exists r, fetched !! i = Some r /\ d = py_dict r.
Proof.
  destruct (capped_is_take config fetched) as [n ->].
  intros Hi. apply lookup_take_Some in Hi as [Hi _].
  rewrite list_lookup_fmap in Hi.
  destruct (fetched !! i) as [r|]; [|done].
  injection Hi as <-. by exists r.
Qed.

(** X5: whatever the value of [MAX_RESULT_ROWS], negative values included,
    the rows returned by a successful [execute_query] or [get_table_data]
    are a prefix of the underlying result, row for row: the row at
    position [i] of the answer is the dictionary of the row at position [i]
    of the result. Rows are never reordered, skipped or altered. *)
Theorem returned_rows_keep_their_position
    {Store : Type} (backend : Backend Store) (config : DatabaseConfig)
    (w : World Store) (fetched : list RowMapping) :
  let positional (rows : list Dict) :=
    rows `prefix_of` map py_dict fetched /\
    forall i d, rows !! i = Some d ->
                exists r, fetched !! i = Some r /\ d = py_dict r in
  (forall qp,
     read_outcome backend config w (query qp) (params_or_empty (params qp))
       = inr fetched ->
     exists rows, (execute_query backend config qp w).1 = inr rows /\
                  positional rows) /\
  (forall p,
     read_outcome backend config w (table_query p) ∅ = inr fetched ->
     exists rows, (get_table_data backend config p w).1 = inr rows /\
                  positional rows).
Proof.
  intros positional.
  assert (Hpos : positional (capped config fetched)).
  { destruct (capped_is_take config fetched) as [n Hn]. rewrite Hn. split.
    - apply prefix_take.
    - intros i d. rewrite <- Hn. apply capped_lookup. }
  split.
  - intros qp Hout. rewrite (execute_query_fetched _ _ _ _ _ Hout). eauto.
  - intros p Hout. rewrite (get_table_data_fetched _ _ _ _ _ Hout). eauto.
Qed.

Lemma returned_rows_keep_their_position_witness :
  exists rows,
    (execute_query toy_backend (toy_config (-1))
       (mkQueryParams "SELECT x FROM t" None) (toy_world [4; 5; 6]%Z)).1
      = inr rows /\
    rows `prefix_of` map py_dict (toy_rows [4; 5; 6]%Z).
Proof.
  destruct (proj1 (returned_rows_keep_their_position toy_backend
                     (toy_config (-1)) (toy_world [4; 5; 6]%Z)
                     (toy_rows [4; 5; 6]%Z))
                  (mkQueryParams "SELECT x FROM t" None) eq_refl)
    as (rows & Hrun & Hpre & _).
  exists rows. split; [exact Hrun | exact Hpre].
Defined.

(** X6: with a negative [MAX_RESULT_ROWS] every successful read counts as
    exceeding the cap: the truncation warning is always logged and the
    answer is the result without its last [-MAX_RESULT_ROWS] rows (empty
    when the result has no more rows than that). *)
Theorem negative_cap_drops_last_rows
    {Store : Type} (backend : Backend Store) (config : DatabaseConfig)
    (w : World Store) (fetched : list RowMapping) :
  (MAX_RESULT_ROWS config < 0)%Z ->
  let kept := (length fetched - Z.to_nat (- MAX_RESULT_ROWS config))%nat in
  (forall qp,
     read_outcome backend config w (query qp) (params_or_empty (params qp))
       = inr fetched ->
     (execute_query backend config qp w).1
       = inr (take kept (map py_dict fetched)) /\
     truncation_warning config ∈ logs (execute_query backend config qp w).2) /\
  (forall p,
     read_outcome backend config w (table_query p) ∅ = inr fetched ->
     (get_table_data backend config p w).1
       = inr (take kept (map py_dict fetched)) /\
     truncation_warning config ∈ logs (get_table_data backend config p w).2).
Proof.
  intros Hneg kept.
  assert (Hcap : capped config fetched = take kept (map py_dict fetched)).
  { unfold capped, py_slice_to, kept, len.
    rewrite decide_True by lia. rewrite decide_False by lia.
    by rewrite length_map. }
  assert (Hwarn : forall info pre,
            truncation_warning config ∈ pre ++ read_logs config info fetched).
  { intros info pre. unfold read_logs, len. rewrite decide_True by lia.
    apply elem_of_app. right. apply elem_of_app. left.
    by apply list_elem_of_singleton. }
  split.
  - intros qp Hout. rewrite (execute_query_fetched _ _ _ _ _ Hout). cbn.
    split; [by rewrite Hcap | apply Hwarn].
  - intros p Hout. rewrite (get_table_data_fetched _ _ _ _ _ Hout). cbn.
    split; [by rewrite Hcap | apply Hwarn].
Qed.

Lemma negative_cap_drops_last_rows_witness :
  (execute_query toy_backend (toy_config (-2))
     (mkQueryParams "SELECT x FROM t" None) (toy_world [4; 5; 6]%Z)).1
    = inr (take 1 (map py_dict (toy_rows [4; 5; 6]%Z))).
Proof.
  apply (proj1 (negative_cap_drops_last_rows toy_backend (toy_config (-2))
                  (toy_world [4; 5; 6]%Z) (toy_rows [4; 5; 6]%Z)
                  ltac:(cbn; lia))
               (mkQueryParams "SELECT x FROM t" None) eq_refl).
Defined.

(** X7: the dictionary built for a result row has exactly the row's column
    names as keys, and when the column names of the row are distinct it
    maps every column to its value; this holds for every row that
    [execute_query] returns. *)
Theorem row_dictionaries_keep_every_column
    {Store : Type} (backend : Backend Store) (config : DatabaseConfig)
    (w : World Store) (qp : QueryParams) (fetched : list RowMapping) :
  read_outcome backend config w (query qp) (params_or_empty (params qp))
    = inr fetched ->
  exists rows,
    (execute_query backend config qp w).1 = inr rows /\
    forall i d, rows !! i = Some d ->
      exists r,
        fetched !! i = Some r /\
        dom d = list_to_set r.*1 /\
        (NoDup r.*1 -> forall k v, (k, v) ∈ r -> d !! k = Some v).
Proof.
  intros Hout. rewrite (execute_query_fetched _ _ _ _ _ Hout).
  eexists. split; [done|].
  intros i d Hi. destruct (capped_lookup config fetched i d Hi) as (r & Hr & ->).
  exists r. split; [done|]. split; [apply py_dict_dom|].
  intros Hnd k v Hin. by apply py_dict_lookup.
Qed.

Lemma row_dictionaries_keep_every_column_witness :
  exists rows,
    (execute_query toy_backend (toy_config 10)
       (mkQueryParams "SELECT x FROM t" None) (toy_world [4; 5]%Z)).1
      = inr rows /\
    forall i d, rows !! i = Some d ->
      exists r,
        toy_rows [4; 5]%Z !! i = Some r /\
        dom d = list_to_set r.*1 /\
        (NoDup r.*1 -> forall k v, (k, v) ∈ r -> d !! k = Some v).
Proof.
  apply (row_dictionaries_keep_every_column toy_backend (toy_config 10)
           (toy_world [4; 5]%Z) (mkQueryParams "SELECT x FROM t" None)
           (toy_rows [4; 5]%Z)).
  reflexivity.
Defined.

(** ** The statement of [get_table_data] *)

Lemma string_app_cons (a : Ascii.ascii) (s t : string) :
  String a s +:+ t = String a (s +:+ t).
Proof. reflexivity. Qed.

Lemma string_app_assoc (s1 s2 s3 : string) :
  (s1 +:+ s2) +:+ s3 = s1 +:+ (s2 +:+ s3).
Proof.
  induction s1 as [|a s1 IH]; [done|].
  by rewrite !string_app_cons, IH.
Qed.

Lemma string_length_app (s1 s2 : string) :
  String.length (s1 +:+ s2) = (String.length s1 + String.length s2)%nat.
Proof.
  induction s1 as [|a s1 IH]; [done|].
  rewrite string_app_cons. cbn. by rewrite IH.
Qed.

Lemma string_app_inv_tail (s1 s2 t : string) :
  s1 +:+ t = s2 +:+ t -> s1 = s2.
Proof.
  revert s2. induction s1 as [|a s1 IH]; intros [|b s2];
    rewrite ?string_app_cons; intros Heq.
  - done.
  - change (t = String b (s2 +:+ t)) in Heq.
    apply (f_equal String.length) in Heq. cbn in Heq.
    rewrite string_length_app in Heq. lia.
  - change (String a (s1 +:+ t) = t) in Heq.
    apply (f_equal String.length) in Heq. cbn in Heq.
    rewrite string_length_app in Heq. lia.
  - injection Heq as -> Heq. f_equal. by apply IH.
Qed.

Lemma validated_limit_in_range (args : TableQueryArgs) (p : TableQueryParams) :
  TableQueryParams_validate args = inr p -> (1 <= limit p <= 1000)%Z.
Proof.
  unfold TableQueryParams_validate.
  destruct (arg_table_name args) as [t|]; [|done].
  destruct (Z.leb_spec 1 (default 100%Z (arg_limit args))); cbn; [|done].
  destruct (Z.leb_spec (default 100%Z (arg_limit args)) 1000); cbn; [|done].
  intros [= <-]. cbn. lia.
Qed.

(** The text composed for the optional [where] and [order_by] fragments. *)
Lemma table_query_shape (p : TableQueryParams) :
  exists select_from filter ordering,
    table_query p =
      ((select_from +:+ filter) +:+ ordering)
        +:+ " LIMIT " +:+ pretty (limit p) +:+ " OFFSET " +:+ pretty (offset p) /\
    select_from =
      "SELECT "
        +:+ py_join ", " (match columns p with
                          | None | Some [] => ["*"]
                          | Some cs => cs
                          end)
        +:+ " FROM " +:+ table_name p /\
    filter = match where_ p with
             | None | Some "" => ""
             | Some f => " WHERE " +:+ f
             end /\
    ordering = match order_by p with
               | None | Some "" => ""
               | Some o => " ORDER BY " +:+ o
               end.
Proof.
  assert (Hnil : forall s : string, s +:+ "" = s).
  { intros s. induction s as [|a s IH]; [done|].
    by rewrite string_app_cons, IH. }
  do 3 eexists. split; [|split; [done|split; done]].
  unfold table_query.
  destruct (where_ p) as [[|a f]|], (order_by p) as [[|b o]|];
    rewrite ?Hnil; reflexivity.
Qed.

(** X8: the statement of [get_table_data] is the column list (["*"] when
    the columns are omitted or empty) and the table name, then the [where]
    fragment, then the [order_by] fragment, then LIMIT and OFFSET; an
    omitted and an empty [where] or [order_by] give the same statement as
    each other, so an empty fragment never produces a dangling WHERE or
    ORDER BY. *)
Theorem table_query_optional_arguments
    (t : string) (cols : option (list string)) (wh ob : option string)
    (l o : Z) :
  table_query (mkTableQueryParams t None wh ob l o)
    = table_query (mkTableQueryParams t (Some []) wh ob l o) /\
  table_query (mkTableQueryParams t cols None ob l o)
    = table_query (mkTableQueryParams t cols (Some "") ob l o) /\
  table_query (mkTableQueryParams t cols wh None l o)
    = table_query (mkTableQueryParams t cols wh (Some "") l o) /\
  table_query (mkTableQueryParams t None None None l o)
    = "SELECT * FROM " +:+ t +:+ " LIMIT " +:+ pretty l
        +:+ " OFFSET " +:+ pretty o /\
  (forall c cs f g,
     table_query (mkTableQueryParams t (Some (c :: cs)) (Some f) (Some g) l o)
     = "SELECT " +:+ py_join ", " (c :: cs) +:+ " FROM " +:+ t
         +:+ (if decide (f = "") then "" else " WHERE " +:+ f)
         +:+ (if decide (g = "") then "" else " ORDER BY " +:+ g)
         +:+ " LIMIT " +:+ pretty l +:+ " OFFSET " +:+ pretty o).
Proof.
  split; [done|]. split; [done|]. split; [done|]. split.
  - unfold table_query. cbn [columns where_ order_by table_name limit offset
      py_join String.concat].
    by rewrite !string_app_assoc.
  - intros c cs f g.
    destruct (table_query_shape
                (mkTableQueryParams t (Some (c :: cs)) (Some f) (Some g) l o))
      as (sf & fl & od & -> & -> & -> & ->).
    cbn [columns where_ order_by table_name limit offset].
    rewrite !string_app_assoc. do 4 f_equal.
    destruct f as [|a f], g as [|b g]; cbn; by rewrite ?string_app_assoc.
Qed.

(** X9: the [where] fragment of a [get_table_data] request is part of the
    statement text itself: it stands verbatim between a head and a tail
    that do not depend on it, two different fragments give two different
    statement texts, and the statement is handed to the library with no
    bound parameter at all. *)
Theorem where_fragment_is_statement_text
    {Store : Type} (backend : Backend Store) (config : DatabaseConfig)
    (w : World Store)
    (t : string) (cols : option (list string)) (ob : option string)
    (l o : Z) :
  let request (f : string) := mkTableQueryParams t cols (Some f) ob l o in
  (exists head tail,
     forall f, f <> "" ->
       table_query (request f) = head +:+ " WHERE " +:+ f +:+ tail) /\
  (forall f1 f2,
     f1 <> "" -> f2 <> "" ->
     table_query (request f1) = table_query (request f2) -> f1 = f2) /\
  (forall f,
     bindings (journal (get_table_data backend config (request f) w).2)
     = bindings (journal w) ++ handed_over backend config w ∅ /\
     statements (journal (get_table_data backend config (request f) w).2)
     = statements (journal w)
         ++ handed_over backend config w (table_query (request f))).
Proof.
  intros request.
  assert (Hshape : exists head tail,
            forall f, f <> "" ->
              table_query (request f) = head +:+ " WHERE " +:+ f +:+ tail).
  { destruct (table_query_shape (request "x"))
      as (sf & _ & od & _ & Hsf & _ & Hod).
    exists sf, (od +:+ " LIMIT " +:+ pretty l +:+ " OFFSET " +:+ pretty o).
    intros f Hf.
    destruct (table_query_shape (request f))
      as (sf' & fl' & od' & -> & -> & -> & ->).
    rewrite Hsf, Hod. cbn [request columns where_ order_by table_name
      limit offset].
    destruct f as [|a f]; [done|].
    by rewrite !string_app_assoc. }
  split; [exact Hshape|]. split.
  - destruct Hshape as (head & tail & Hshape).
    intros f1 f2 Hf1 Hf2. rewrite (Hshape f1 Hf1), (Hshape f2 Hf2).
    intros Heq. apply (inj (String.append head)) in Heq.
    apply (inj (String.append " WHERE ")) in Heq.
    by apply string_app_inv_tail in Heq.
  - intros f. rewrite get_table_data_journal, bindings_app, statements_app.
    unfold handed_over. by destruct (checkout _ _ _).
Qed.

Lemma where_fragment_is_statement_text_witness :
  exists head tail,
    table_query (mkTableQueryParams "t" None (Some "x > 1 OR 1=1") None 100 0)
    = head +:+ " WHERE " +:+ "x > 1 OR 1=1" +:+ tail.
Proof.
  destruct (proj1 (where_fragment_is_statement_text toy_backend
                     (toy_config 10) (toy_world [1]%Z) "t" None None 100 0))
    as (head & tail & Hshape).
  exists head, tail. apply (Hshape "x > 1 OR 1=1"). discriminate.
Defined.

(** ** Validation *)

(** X10: a [get_table_data] request passes validation exactly when it
    names a table and its limit, 100 when omitted, lies in [1, 1000]; the
    validated model then carries the arguments unchanged, with offset 0
    when omitted. In particular every validated model has a limit in
    [1, 1000]. *)
Theorem validation_accepts_exactly
    (args : TableQueryArgs) (p : TableQueryParams) :
  TableQueryParams_validate args = inr p <->
  (exists t,
     arg_table_name args = Some t /\
     (1 <= default 100 (arg_limit args) <= 1000)%Z /\
     p = mkTableQueryParams t (arg_columns args) (arg_where args)
           (arg_order_by args) (default 100%Z (arg_limit args))
           (default 0%Z (arg_offset args))).
Proof.
  unfold TableQueryParams_validate. split.
  - destruct (arg_table_name args) as [t|]; [|done].
    destruct (Z.leb_spec 1 (default 100%Z (arg_limit args))); cbn; [|done].
    destruct (Z.leb_spec (default 100%Z (arg_limit args)) 1000); cbn; [|done].
    intros [= <-]. exists t. split; [done|]. split; [lia|done].
  - intros (t & -> & [Hlo Hhi] & ->).
    destruct (Z.leb_spec 1 (default 100%Z (arg_limit args))); cbn; [|lia].
    destruct (Z.leb_spec (default 100%Z (arg_limit args)) 1000); cbn; [|lia].
    done.
Qed.

Lemma validation_accepts_exactly_witness :
  TableQueryParams_validate
    (mkTableQueryArgs (Some "t") (Some ["x"]) None None (Some 1000%Z) None)
  = inr (mkTableQueryParams "t" (Some ["x"]) None None 1000 0).
Proof.
  apply (proj2 (validation_accepts_exactly
                  (mkTableQueryArgs (Some "t") (Some ["x"]) None None
                     (Some 1000%Z) None)
                  (mkTableQueryParams "t" (Some ["x"]) None None 1000 0))).
  exists "t". split; [reflexivity|]. split; [cbn; lia | reflexivity].
Defined.

(** X11: whatever the arguments, [get_table_data] as the dispatcher calls
    it hands at most one statement to the library; that statement is the
    one composed from a validated model, so its LIMIT lies in [1, 1000],
    and it is sent without bound parameters. A request that fails
    validation sends nothing. *)
Theorem dispatched_statement_has_valid_limit
    {Store : Type} (backend : Backend Store) (config : DatabaseConfig)
    (args : TableQueryArgs) (w : World Store) :
  exists sent,
    statements (journal (call_get_table_data backend config args w).2)
      = statements (journal w) ++ sent /\
    (sent = [] \/
     exists p,
       sent = [table_query p] /\
       TableQueryParams_validate args = inr p /\
       (1 <= limit p <= 1000)%Z /\
       bindings (journal (call_get_table_data backend config args w).2)
         = bindings (journal w) ++ [∅]) /\
    (forall e, TableQueryParams_validate args = inl e -> sent = []).
Proof.
  unfold call_get_table_data.
  destruct (TableQueryParams_validate args) as [e|p] eqn:Hval.
  - exists []. cbn. rewrite (right_id_L [] (++)). auto.
  - rewrite get_table_data_journal, statements_app, bindings_app.
    unfold handed_over.
    destruct (checkout _ _ _); eexists; (split; [cbn; reflexivity|]).
    + split; [by left | done].
    + split; [|done]. right. exists p. split; [done|]. split; [done|].
      split; [|done].
      by apply (validated_limit_in_range args).
Qed.

Lemma dispatched_statement_has_valid_limit_witness :
  exists sent,
    statements
      (journal
         (call_get_table_data toy_backend (toy_config 10)
            (mkTableQueryArgs None None None None (Some 5%Z) None)
            (toy_world [1]%Z)).2)
      = statements (journal (toy_world [1]%Z)) ++ sent /\
    sent = [].
Proof.
  destruct (dispatched_statement_has_valid_limit toy_backend (toy_config 10)
              (mkTableQueryArgs None None None None (Some 5%Z) None)
              (toy_world [1]%Z)) as (sent & Hsent & _ & Hnone).
  exists sent. split; [exact Hsent|].
  apply (Hnone (mkException "ValidationError" "table_name: Field required")).
  reflexivity.
Defined.

(** ** Reflection results *)

Lemma column_info_fields (col : ReflectedColumn) :
  column_info col !! "name" = Some (PyStr (col_name col)) /\
  column_info col !! "type" = Some (PyStr (col_type col)) /\
  column_info col !! "nullable" = Some (PyBool (col_nullable col)) /\
  column_info col !! "default" = Some (py_opt_str (col_default col)) /\
  column_info col !! "comment"
    = Some (match col_comment col with
            | None => PyStr ""
            | Some c => py_opt_str c
            end) /\
  dom (column_info col)
    = list_to_set ["name"; "type"; "nullable"; "default"; "comment"].
Proof.
  unfold column_info. repeat split; try apply py_dict_dom.
  all: apply py_dict_lookup;
    [ cbn; repeat (apply NoDup_cons; split;
        [intros Hin; repeat (apply elem_of_cons in Hin as [Hin|Hin];
           [discriminate Hin|]); by apply elem_of_nil in Hin|]);
      apply NoDup_nil; done
    | repeat (first [apply list_elem_of_here | apply list_elem_of_further]) ].
Qed.

(** X12: when the reflection call succeeds, [describe_table] returns one
    dictionary per column, in the order of the columns, each with exactly
    the keys name, type, nullable, default and comment; a column without a
    default has [None] as default, and a column for which the library
    reports no comment key has the empty string as comment. One INFO record
    is logged. *)
Theorem describe_table_describes_every_column
    {Store : Type} (backend : Backend Store) (config : DatabaseConfig)
    (w : World Store) (t : string) (cols : list ReflectedColumn) :
  get_columns backend (engine config) (committed w) t = inr cols ->
  exists result w',
    describe_table backend config t w = (inr result, w') /\
    length result = length cols /\
    logs w' = logs w ++ [mkLogRecord INFO ("成功获取表结构: " +:+ t)] /\
    forall i col, cols !! i = Some col ->
      exists d,
        result !! i = Some d /\
        dom d = list_to_set ["name"; "type"; "nullable"; "default"; "comment"] /\
        d !! "name" = Some (PyStr (col_name col)) /\
        d !! "type" = Some (PyStr (col_type col)) /\
        d !! "nullable" = Some (PyBool (col_nullable col)) /\
        (col_default col = None -> d !! "default" = Some PyNone) /\
        (col_comment col = None -> d !! "comment" = Some (PyStr "")).
Proof.
  intros Hcols. py_unfold. rewrite Hcols. cbn.
  do 2 eexists. split; [done|]. split; [apply length_map|]. split; [done|].
  intros i col Hi. exists (column_info col).
  split; [by rewrite list_lookup_fmap, Hi|].
  destruct (column_info_fields col) as (Hn & Ht & Hnl & Hd & Hc & Hdom).
  repeat split; try done.
  - intros Hnone. by rewrite Hd, Hnone.
  - intros Hnone. by rewrite Hc, Hnone.
Qed.

Lemma describe_table_describes_every_column_witness :
  exists result w',
    describe_table toy_backend (toy_config 10) "t" (toy_world [1]%Z)
      = (inr result, w') /\
    length result = 1%nat.
Proof.
  destruct (describe_table_describes_every_column toy_backend (toy_config 10)
              (toy_world [1]%Z) "t"
              [mkReflectedColumn "x" "INTEGER" false None None] eq_refl)
    as (result & w' & Hrun & Hlen & _).
  exists result, w'. split; [exact Hrun | exact Hlen].
Defined.

(** ** Start-up *)

Section StartupRuns.
Context {Store : Type}.
Variable backend : Backend Store.
Variable config : DatabaseConfig.
Variable w : World Store.

Lemma main_without_connection (mcp_run : Py unit) (e : Exception) :
  checkout backend (engine config) (committed w) = Some e ->
  main backend config mcp_run w =
    (inl e,
     mkWorld (committed w) (session w) (journal w ++ [Connect])
       (logs w ++
          [ mkLogRecord INFO "启动MySQL MCP Server...";
            mkLogRecord INFO (connection_line config);
            mkLogRecord CRITICAL ("服务器启动失败: " +:+ str e) ])).
Proof.
  unfold main, logger_critical. py_unfold. intros ->. cbn.
  by rewrite <- !(assoc_L (++)).
Qed.

Lemma main_test_statement_raised (mcp_run : Py unit) (s : Store)
    (e : Exception) :
  checkout backend (engine config) (committed w) = None ->
  run backend (committed w) "SELECT 1" ∅ = (s, inl e) ->
  main backend config mcp_run w =
    (inl e,
     mkWorld (committed w) (committed w)
       (journal w ++ [Connect; Execute "SELECT 1" ∅; Close])
       (logs w ++
          [ mkLogRecord INFO "启动MySQL MCP Server...";
            mkLogRecord INFO (connection_line config);
            mkLogRecord CRITICAL ("服务器启动失败: " +:+ str e) ])).
Proof.
  unfold main, logger_critical. py_unfold. intros -> ->. cbn.
  by rewrite <- !(assoc_L (++)).
Qed.

Lemma main_test_statement_passed (mcp_run : Py unit) (s : Store)
    (cur : CursorResult) :
  checkout backend (engine config) (committed w) = None ->
  run backend (committed w) "SELECT 1" ∅ = (s, inr cur) ->
  main backend config mcp_run w =
    match
      mcp_run
        (mkWorld (committed w) (committed w)
           (journal w ++ [Connect; Execute "SELECT 1" ∅; Close])
           (logs w ++
              [ mkLogRecord INFO "启动MySQL MCP Server...";
                mkLogRecord INFO (connection_line config);
                mkLogRecord INFO "数据库连接测试成功" ]))
    with
    | (inl e, w') =>
      (inl e,
       mkWorld (committed w') (session w') (journal w')
         (logs w' ++ [mkLogRecord CRITICAL ("服务器启动失败: " +:+ str e)]))
    | (inr u, w') => (inr u, w')
    end.
Proof.
  unfold main, logger_critical. py_unfold. intros -> ->. cbn.
  by rewrite <- !(assoc_L (++)).
Qed.
End StartupRuns.

(** X13: at start-up the MCP server loop is entered only after a
    connection was obtained and the test statement [SELECT 1] ran without
    raising (its result is not read). If the connection or the statement
    fails, the loop is never entered: the exception is logged as CRITICAL
    and raised, and the outcome is the same for every server loop. An
    exception raised by the loop itself is logged as CRITICAL and raised as
    well. *)
Theorem server_runs_only_after_self_check
    {Store : Type} (backend : Backend Store) (config : DatabaseConfig)
    (w : World Store) :
  (forall e,
     checkout backend (engine config) (committed w) = Some e ->
     forall mcp_run mcp_run',
       main backend config mcp_run w = main backend config mcp_run' w /\
       (main backend config mcp_run w).1 = inl e /\
       last (logs (main backend config mcp_run w).2)
         = Some (mkLogRecord CRITICAL ("服务器启动失败: " +:+ str e))) /\
  (forall s e,
     checkout backend (engine config) (committed w) = None ->
     run backend (committed w) "SELECT 1" ∅ = (s, inl e) ->
     forall mcp_run mcp_run',
       main backend config mcp_run w = main backend config mcp_run' w /\
       (main backend config mcp_run w).1 = inl e /\
       last (logs (main backend config mcp_run w).2)
         = Some (mkLogRecord CRITICAL ("服务器启动失败: " +:+ str e))) /\
  (forall s cur,
     checkout backend (engine config) (committed w) = None ->
     run backend (committed w) "SELECT 1" ∅ = (s, inr cur) ->
     forall mcp_run,
       let ready :=
         mkWorld (committed w) (committed w)
           (journal w ++ [Connect; Execute "SELECT 1" ∅; Close])
           (logs w ++
              [ mkLogRecord INFO "启动MySQL MCP Server...";
                mkLogRecord INFO (connection_line config);
                mkLogRecord INFO "数据库连接测试成功" ]) in
       (main backend config mcp_run w).1 = (mcp_run ready).1 /\
       (forall e,
          (mcp_run ready).1 = inl e ->
          last (logs (main backend config mcp_run w).2)
            = Some (mkLogRecord CRITICAL ("服务器启动失败: " +:+ str e))) /\
       (forall u,
          (mcp_run ready).1 = inr u ->
          (main backend config mcp_run w).2 = (mcp_run ready).2)).
Proof.
  split; [|split].
  - intros e Hconn mcp_run mcp_run'.
    rewrite !(main_without_connection _ _ _ _ e Hconn). cbn.
    split; [done|]. split; [done|].
    apply (last_after_middle (logs w) [_; _]).
  - intros s e Hconn Hrun mcp_run mcp_run'.
    rewrite !(main_test_statement_raised _ _ _ _ s e Hconn Hrun). cbn.
    split; [done|]. split; [done|].
    apply (last_after_middle (logs w) [_; _]).
  - intros s cur Hconn Hrun mcp_run ready.
    rewrite (main_test_statement_passed _ _ _ _ s cur Hconn Hrun).
    fold ready. destruct (mcp_run ready) as [[e|u] w']; cbn.
    + split; [done|].
      split; [intros ? [= <-]; apply last_snoc | intros u Hu; discriminate Hu].
    + split; [done|].
      split; [intros e He; discriminate He | done].
Qed.

Lemma server_runs_only_after_self_check_witness :
  (main unreachable_backend (toy_config 10) (ret tt) (toy_world [1]%Z)).1
    = inl (mkException "OperationalError" "Can't connect to MySQL server").
Proof.
  apply (proj1 (server_runs_only_after_self_check unreachable_backend
                  (toy_config 10) (toy_world [1]%Z))
               (mkException "OperationalError" "Can't connect to MySQL server")
               eq_refl (ret tt) (ret tt)).
Defined.

(** ** Settings *)

(** X14: the configuration loads exactly when host, user, password and
    database name are all set; unset optional settings take the defaults
    3306, 5, 3600, 2, 30 and 1000, and a value that is set is taken as it
    is, without a range check, so that a negative [MAX_RESULT_ROWS] or pool
    size is accepted. *)
Theorem settings_load_with_defaults (env : Environment) :
  ((exists c, DatabaseConfig_load env = inr c) <->
   is_Some (env_DB_HOST env) /\ is_Some (env_DB_USER env) /\
   is_Some (env_DB_PASSWORD env) /\ is_Some (env_DB_NAME env)) /\
  (forall c,
     DatabaseConfig_load env = inr c ->
     env_DB_HOST env = Some (DB_HOST c) /\
     env_DB_USER env = Some (DB_USER c) /\
     env_DB_PASSWORD env = Some (DB_PASSWORD c) /\
     env_DB_NAME env = Some (DB_NAME c) /\
     DB_PORT c = default 3306%Z (env_DB_PORT env) /\
     DB_POOL_SIZE c = default 5%Z (env_DB_POOL_SIZE env) /\
     DB_POOL_RECYCLE c = default 3600%Z (env_DB_POOL_RECYCLE env) /\
     DB_MAX_OVERFLOW c = default 2%Z (env_DB_MAX_OVERFLOW env) /\
     QUERY_TIMEOUT c = default 30%Z (env_QUERY_TIMEOUT env) /\
     MAX_RESULT_ROWS c = default 1000%Z (env_MAX_RESULT_ROWS env)) /\
  (forall h u p n,
     DatabaseConfig_load
       (mkEnvironment (Some h) None (Some u) (Some p) (Some n)
          None None None None None)
     = inr (default_config h u p n)).
Proof.
  unfold DatabaseConfig_load. split; [|split].
  - split.
    + intros [c Hc].
      destruct (env_DB_HOST env), (env_DB_USER env), (env_DB_PASSWORD env),
        (env_DB_NAME env); done.
    + intros ([h ->] & [u ->] & [p ->] & [n ->]). by eexists.
  - intros c.
    destruct (env_DB_HOST env), (env_DB_USER env), (env_DB_PASSWORD env),
      (env_DB_NAME env); try done.
    intros [= <-]. by repeat split.
  - done.
Qed.

Lemma settings_load_with_defaults_witness :
  exists c,
    DatabaseConfig_load
      (mkEnvironment (Some "localhost") None (Some "mcp") (Some "secret")
         (Some "demo") None None None None (Some (-1)%Z)) = inr c.
Proof.
  apply (proj2 (proj1 (settings_load_with_defaults
                         (mkEnvironment (Some "localhost") None (Some "mcp")
                            (Some "secret") (Some "demo") None None None None
                            (Some (-1)%Z))))).
  repeat split; eexists; reflexivity.
Defined.

(** ** Writes followed by reads *)

Lemma read_outcome_committed
    {Store : Type} (backend : Backend Store) (config : DatabaseConfig)
    (w1 w2 : World Store) (sql : string) (bound : Dict) :
  committed w1 = committed w2 ->
  read_outcome backend config w1 sql bound
    = read_outcome backend config w2 sql bound.
Proof. unfold read_outcome. by intros ->. Qed.

Lemma execute_write_raised_keeps_committed
    {Store : Type} (backend : Backend Store) (config : DatabaseConfig)
    (qp : QueryParams) (w : World Store) (e : Exception) :
  (execute_write backend config qp w).1 = inl e ->
  committed (execute_write backend config qp w).2 = committed w.
Proof.
  destruct (checkout backend (engine config) (committed w))
    as [e'|] eqn:Hconn.
  { by rewrite (execute_write_no_connection _ _ _ _ e' Hconn). }
  destruct (run backend (committed w) (query qp)
              (params_or_empty (params qp))) as [s [e'|cur]] eqn:Hrun.
  { by rewrite (execute_write_statement_raised _ _ _ _ s e' Hconn Hrun). }
  destruct (commit_error backend s) as [e'|] eqn:Hcommit.
  - by rewrite (execute_write_commit_raised _ _ _ _ s cur e' Hconn Hrun Hcommit).
  - by rewrite (execute_write_committed _ _ _ _ s cur Hconn Hrun Hcommit).
Qed.

(** X15: a write that raised, for whatever reason (no connection, failing
    statement, failing commit), is invisible to the reads that follow: an
    [execute_query] or [get_table_data] call made after it returns what the
    same call would have returned before it. *)
Theorem failed_write_invisible_to_reads
    {Store : Type} (backend : Backend Store) (config : DatabaseConfig)
    (qw : QueryParams) (w : World Store) (e : Exception) :
  (execute_write backend config qw w).1 = inl e ->
  let w' := (execute_write backend config qw w).2 in
  (forall qr,
     (execute_query backend config qr w').1
       = (execute_query backend config qr w).1) /\
  (forall p,
     (get_table_data backend config p w').1
       = (get_table_data backend config p w).1).
Proof.
  intros Hfail w'.
  pose proof (execute_write_raised_keeps_committed _ _ _ _ _ Hfail) as Hdb.
  fold w' in Hdb. split.
  - intros qr.
    rewrite (proj1 (execute_query_propagates backend config w' qr)).
    rewrite (proj1 (execute_query_propagates backend config w qr)).
    by rewrite (read_outcome_committed _ _ w' w _ _ Hdb).
  - intros p.
    rewrite (proj1 (get_table_data_propagates backend config w' p)).
    rewrite (proj1 (get_table_data_propagates backend config w p)).
    by rewrite (read_outcome_committed _ _ w' w _ _ Hdb).
Qed.

Lemma failed_write_invisible_to_reads_witness :
  (execute_query toy_backend (toy_config 10)
     (mkQueryParams "SELECT x FROM t" None)
     (execute_write toy_backend (toy_config 10)
        (mkQueryParams "INSERT INTO t(x) VALUES(:v),(NULL)"
           (Some {[ "v" := PyInt 5 ]}))
        (toy_world [1]%Z)).2).1
  = (execute_query toy_backend (toy_config 10)
       (mkQueryParams "SELECT x FROM t" None) (toy_world [1]%Z)).1.
Proof.
  assert (Hfail :
    (execute_write toy_backend (toy_config 10)
       (mkQueryParams "INSERT INTO t(x) VALUES(:v),(NULL)"
          (Some {[ "v" := PyInt 5 ]}))
       (toy_world [1]%Z)).1
    = inl (mkException "IntegrityError" "Column 'x' cannot be null")).
  { vm_compute. reflexivity. }
  apply (proj1 (failed_write_invisible_to_reads toy_backend (toy_config 10)
                  _ _ _ Hfail)).
Defined.

(** X16: after a write whose statement and commit succeeded, a read sees
    the content the write's statement produced: [execute_query] returns
    what the library answers on that content, capped. *)
Theorem committed_write_visible_to_reads
    {Store : Type} (backend : Backend Store) (config : DatabaseConfig)
    (qw : QueryParams) (w : World Store) (s : Store) (cur : CursorResult) :
  checkout backend (engine config) (committed w) = None ->
  run backend (committed w) (query qw) (params_or_empty (params qw))
    = (s, inr cur) ->
  commit_error backend s = None ->
  let w' := (execute_write backend config qw w).2 in
  committed w' = s /\
  forall qr,
    (execute_query backend config qr w').1
    = on_success (capped config)
        (match checkout backend (engine config) s with
         | Some e => inl e
         | None =>
           match (run backend s (query qr)
                    (params_or_empty (params qr))).2 with
           | inl e => inl e
           | inr result => fetch result
           end
         end).
Proof.
  intros Hconn Hrun Hcommit w'. unfold w'.
  rewrite (execute_write_committed _ _ _ _ s cur Hconn Hrun Hcommit).
  cbn [snd committed]. split; [done|]. intros qr.
  by rewrite (proj1 (execute_query_propagates backend config _ qr)).
Qed.

Lemma committed_write_visible_to_reads_witness :
  (execute_query toy_backend (toy_config 10)
     (mkQueryParams "SELECT x FROM t" None)
     (execute_write toy_backend (toy_config 10)
        (mkQueryParams "INSERT INTO t(x) VALUES(:v)"
           (Some {[ "v" := PyInt 5 ]}))
        (toy_world [1]%Z)).2).1
  = inr [ py_dict [("x", PyInt 1)]; py_dict [("x", PyInt 5)] ].
Proof.
  assert (Hrun :
    run toy_backend (committed (toy_world [1]%Z))
      (query (mkQueryParams "INSERT INTO t(x) VALUES(:v)"
                (Some {[ "v" := PyInt 5 ]})))
      (params_or_empty
         (params (mkQueryParams "INSERT INTO t(x) VALUES(:v)"
                    (Some {[ "v" := PyInt 5 ]}))))
    = ([1; 5]%Z,
       inr (mkCursorResult
              (inl (mkException "ResourceClosedError"
                      "This result object does not return rows."))
              1 2))).
  { vm_compute. reflexivity. }
  rewrite (proj2 (committed_write_visible_to_reads toy_backend (toy_config 10)
                    _ (toy_world [1]%Z) _ _ eq_refl Hrun eq_refl)
                 (mkQueryParams "SELECT x FROM t" None)).
  vm_compute. reflexivity.
Defined.
